(** * cli-web-server-cache: the read-through JPEG cache server of [main.js]

    A shallow embedding of the request handler of [src/main.js] and of the
    Node.js primitives it calls, followed by the properties of the
    specification that the handler is checked against.

    Conventions.
    - A JavaScript string is a [string]: the bytes of its UTF-8 encoding.
      The two regular expressions of the program only tell ['/'] and the
      ASCII digits from everything else, and the string operations of the
      program cut at ASCII characters only, so bytes and UTF-16 code units
      agree there; where they do not (the order of [sort], the output of
      [decodeURIComponent]) the code units are computed from the bytes.
    - A [Buffer] is a [list byte].
    - The cache directory is a finite map from file paths to file contents.
    - [path.join] and [path.dirname] are the POSIX ones of Node.js. *)

From Stdlib Require Import ZArith Ascii.
From stdpp Require Import gmap strings list fin_maps sorting.

Local Open Scope Z_scope.

(** ** JavaScript strings and the two regular expressions *)

Module Js.

(** [s.slice(n)] for [0 <= n]. *)
Fixpoint slice (n : nat) (s : string) : string :=
  match n, s with
  | O, _ => s
  | S _, EmptyString => EmptyString
  | S n', String _ s' => slice n' s'
  end.

(** The atoms that occur in the program's regular expressions:
    an escaped literal ([\/]) and the class [\d]. *)
Inductive atom : Type :=
  | Lit (c : ascii)
  | Digit.

(** [\d] without the [u] or [v] flag is exactly [[0-9]]. *)
Definition is_digit (c : ascii) : bool :=
  let n := N_of_ascii c in
  (48 <=? n)%N && (n <=? 57)%N.

Definition atom_matches (a : atom) (c : ascii) : bool :=
  match a with
  | Lit d => bool_decide (c = d)
  | Digit => is_digit c
  end.

(** [/^p$/.test(s)] for a sequence [p] of atoms.  There is no [m] flag,
    so [^] and [$] are the two ends of the input and nothing else. *)
Fixpoint test (p : list atom) (s : string) : bool :=
  match p, s with
  | [], EmptyString => true
  | a :: p', String c s' => atom_matches a c && test p' s'
  | _, _ => false
  end.

(** The quantifier [a{n}]. *)
Definition times (n : nat) (a : atom) : list atom := replicate n a.

(** [s.startsWith(prefix)] *)
Fixpoint startsWith (s prefix : string) : bool :=
  match prefix, s with
  | EmptyString, _ => true
  | String a prefix', String b s' => bool_decide (a = b) && startsWith s' prefix'
  | String _ _, EmptyString => false
  end.

(** [s.includes(needle)] *)
Fixpoint includes (s needle : string) : bool :=
  startsWith s needle
  || match s with
     | EmptyString => false
     | String _ s' => includes s' needle
     end.

(** *** [decodeURIComponent] *)

Definition hex_digit (c : ascii) : option N :=
  let n := N_of_ascii c in
  if (48 <=? n)%N && (n <=? 57)%N then Some (n - 48)%N
  else if (65 <=? n)%N && (n <=? 70)%N then Some (n - 55)%N
  else if (97 <=? n)%N && (n <=? 102)%N then Some (n - 87)%N
  else None.

(** The octet that the two hexadecimal digits of an escape [%hl] denote. *)
Definition hex_octet (h l : ascii) : option N :=
  match hex_digit h, hex_digit l with
  | Some a, Some b => Some (16 * a + b)%N
  | _, _ => None
  end.

(** The number of leading 1 bits of an octet, up to five. *)
Definition leading_ones (b : N) : nat :=
  if (b <? 128)%N then 0
  else if (b <? 192)%N then 1
  else if (b <? 224)%N then 2
  else if (b <? 240)%N then 3
  else if (b <? 248)%N then 4
  else 5.

Definition is_continuation (b : N) : bool := (128 <=? b)%N && (b <? 192)%N.

(** The code point that [octets] encode in UTF-8, when they are the valid
    encoding of one: shortest form, no surrogate, at most [U+10FFFF]. *)
Definition utf8_code_point (octets : list N) : option N :=
  match octets with
  | [b0] => if (b0 <? 128)%N then Some b0 else None
  | [b0; b1] =>
      let cp := ((b0 - 192) * 64 + (b1 - 128))%N in
      if (leading_ones b0 =? 2)%nat && is_continuation b1 && (128 <=? cp)%N
      then Some cp else None
  | [b0; b1; b2] =>
      let cp := ((b0 - 224) * 4096 + (b1 - 128) * 64 + (b2 - 128))%N in
      if (leading_ones b0 =? 3)%nat && is_continuation b1 && is_continuation b2
         && (2048 <=? cp)%N && negb ((55296 <=? cp)%N && (cp <=? 57343)%N)
      then Some cp else None
  | [b0; b1; b2; b3] =>
      let cp := ((b0 - 240) * 262144 + (b1 - 128) * 4096
                 + (b2 - 128) * 64 + (b3 - 128))%N in
      if (leading_ones b0 =? 4)%nat && is_continuation b1 && is_continuation b2
         && is_continuation b3 && (65536 <=? cp)%N && (cp <=? 1114111)%N
      then Some cp else None
  | _ => None
  end.

Definition string_of_octets (octets : list N) : string :=
  String.string_of_list_ascii (ascii_of_N <$> octets).

(** The loop of [Decode], with an empty set of preserved escapes.  A
    character other than [%] is copied.  An escape below 128 gives that
    character; one that opens a UTF-8 sequence of two to four octets must be
    followed by the escapes of the rest of it, kept in [pending] with the
    number still due, and the sequence must encode a code point, which is
    what is appended.  Anything else throws a [URIError]: [None]. *)
Fixpoint decode (pending : option (nat * list N)) (s : string) : option string :=
  match s with
  | EmptyString =>
      match pending with
      | None => Some EmptyString
      | Some _ => None
      end
  | String c rest =>
      if bool_decide (c = "%"%char) then
        match rest with
        | String h (String l rest') =>
            match hex_octet h l, pending with
            | None, _ => None
            | Some b, None =>
                match leading_ones b with
                | 0%nat => String (ascii_of_N b) <$> decode None rest'
                | 2%nat => decode (Some (1%nat, [b])) rest'
                | 3%nat => decode (Some (2%nat, [b])) rest'
                | 4%nat => decode (Some (3%nat, [b])) rest'
                | _ => None
                end
            | Some b, Some (1%nat, octets) =>
                match utf8_code_point (octets ++ [b]) with
                | Some _ =>
                    String.append (string_of_octets (octets ++ [b]))
                      <$> decode None rest'
                | None => None
                end
            | Some b, Some (S due, octets) =>
                decode (Some (due, octets ++ [b])) rest'
            | Some _, Some (O, _) => None
            end
        | _ => None
        end
      else
        match pending with
        | None => String c <$> decode None rest
        | Some _ => None
        end
  end.

(** [decodeURIComponent(s)], or [None] where it throws. *)
Definition decodeURIComponent (s : string) : option string := decode None s.

(** *** The order of [Array.prototype.sort] *)

Definition replacement : N := 65533.

(** [UTF16EncodeCodePoint] *)
Definition utf16 (cp : N) : list N :=
  if (cp <? 65536)%N then [cp]
  else [(55296 + (cp - 65536) / 1024)%N; (56320 + (cp - 65536) mod 1024)%N].

(** What the first octet of a character gives alone. *)
Definition first_octet (b : N) : list N * option (nat * list N) :=
  match leading_ones b with
  | 0%nat => ([b], None)
  | 2%nat => ([], Some (1%nat, [b]))
  | 3%nat => ([], Some (2%nat, [b]))
  | 4%nat => ([], Some (3%nat, [b]))
  | _ => ([replacement], None)
  end.

(** The UTF-16 code units of the string whose UTF-8 encoding is [bytes].
    Bytes that are no UTF-8, which encode no JavaScript string, give
    [U+FFFD]. *)
Fixpoint code_units_of (pending : option (nat * list N)) (bytes : list N)
  : list N :=
  match bytes with
  | [] =>
      match pending with
      | None => []
      | Some _ => [replacement]
      end
  | b :: bytes' =>
      match pending with
      | None =>
          let '(units, pending') := first_octet b in
          units ++ code_units_of pending' bytes'
      | Some (due, octets) =>
          if is_continuation b then
            match due with
            | 1%nat =>
                match utf8_code_point (octets ++ [b]) with
                | Some cp => utf16 cp
                | None => [replacement]
                end ++ code_units_of None bytes'
            | S due' => code_units_of (Some (due', octets ++ [b])) bytes'
            | O => replacement :: code_units_of None bytes'
            end
          else
            let '(units, pending') := first_octet b in
            replacement :: units ++ code_units_of pending' bytes'
      end
  end.

Definition code_units (s : string) : list N :=
  code_units_of None (N_of_ascii <$> String.list_ascii_of_string s).

(** [x < y || x = y] on the code units, first difference first. *)
Fixpoint units_leb (x y : list N) : bool :=
  match x, y with
  | [], _ => true
  | _ :: _, [] => false
  | a :: x', b :: y' => (a <? b)%N || ((a =? b)%N && units_leb x' y')
  end.

(** The order in which [sort] without a comparator leaves two strings. *)
Definition sort_le (a b : string) : Prop :=
  units_leb (code_units a) (code_units b).

#[global] Instance sort_le_dec : RelDecision sort_le :=
  fun a b => Is_true_dec (units_leb (code_units a) (code_units b)).

(** [names.sort()] *)
Definition sort (names : list string) : list string := merge_sort sort_le names.

End Js.

(** [const codeRegex = /^\d{3}$/;] *)
Definition codeRegex : list Js.atom := Js.times 3 Js.Digit.

(** The route test of the handler, [/^\/\d{3}$/]. *)
Definition routeRegex : list Js.atom := Js.Lit "/" :: Js.times 3 Js.Digit.

(** ** POSIX [path] of Node.js *)

Module Path.

Definition is_sep (c : ascii) : bool := bool_decide (c = "/"%char).

(** The segments between the separators; never the empty list. *)
Fixpoint split (s : string) : list string :=
  match s with
  | EmptyString => [EmptyString]
  | String c s' =>
      if is_sep c then EmptyString :: split s'
      else match split s' with
           | seg :: segs => String c seg :: segs
           | [] => [String c EmptyString]
           end
  end.

(** Segments joined by one separator each. *)
Fixpoint unsplit (segs : list string) : string :=
  match segs with
  | [] => ""
  | [seg] => seg
  | seg :: segs' => seg +:+ "/" +:+ unsplit segs'
  end.

(** [normalizeString]: drops empty and [.] segments and resolves [..]
    against the segments kept so far, which [res] holds last first. *)
Fixpoint normalizeString (allowAboveRoot : bool) (res segs : list string)
  : list string :=
  match segs with
  | [] => rev res
  | seg :: segs' =>
      if bool_decide (seg = "") || bool_decide (seg = ".") then
        normalizeString allowAboveRoot res segs'
      else if bool_decide (seg = "..") then
        match res with
        | last :: res' =>
            if bool_decide (last = "..") then
              normalizeString allowAboveRoot
                (if allowAboveRoot then seg :: res else res) segs'
            else normalizeString allowAboveRoot res' segs'
        | [] =>
            normalizeString allowAboveRoot
              (if allowAboveRoot then [seg] else []) segs'
        end
      else normalizeString allowAboveRoot (seg :: res) segs'
  end.

Definition starts_with_sep (s : string) : bool :=
  match s with
  | String c _ => is_sep c
  | EmptyString => false
  end.

Fixpoint ends_with_sep (s : string) : bool :=
  match s with
  | EmptyString => false
  | String c EmptyString => is_sep c
  | String _ s' => ends_with_sep s'
  end.

(** [path.normalize] *)
Definition normalize (p : string) : string :=
  if bool_decide (p = "") then "."
  else
    let isAbsolute := starts_with_sep p in
    let trailingSeparator := ends_with_sep p in
    let body := unsplit (normalizeString (negb isAbsolute) [] (split p)) in
    if bool_decide (body = "") then
      if isAbsolute then "/" else if trailingSeparator then "./" else "."
    else
      let body' := if trailingSeparator then body +:+ "/" else body in
      if isAbsolute then "/" +:+ body' else body'.

(** [path.join(a, b)]: the non-empty arguments, joined by a separator,
    then normalised. *)
Definition join (a b : string) : string :=
  let joined :=
    foldl (fun acc arg =>
             if bool_decide (arg = "") then acc
             else match acc with
                  | None => Some arg
                  | Some j => Some (j +:+ "/" +:+ arg)
                  end) None [a; b] in
  match joined with
  | None => "."
  | Some j => normalize j
  end.

(** The backwards scan of [path.dirname]: [cs] holds the characters of
    indices [length cs], ..., [1] of the path, last first.  The result is
    the index [end] of the separator that closes the directory part. *)
Fixpoint dirname_scan (cs : list ascii) (matchedSlash : bool) : option nat :=
  match cs with
  | [] => None
  | c :: cs' =>
      if is_sep c then
        if matchedSlash then dirname_scan cs' true
        else Some (S (List.length cs'))
      else dirname_scan cs' false
  end.

(** [path.dirname] *)
Definition dirname (p : string) : string :=
  match p with
  | EmptyString => "."
  | String c0 rest =>
      let hasRoot := is_sep c0 in
      match dirname_scan (rev (String.list_ascii_of_string rest)) true with
      | None => if hasRoot then "/" else "."
      | Some e =>
          if hasRoot && bool_decide (e = 1%nat) then "//"
          else String.substring 0 e p
      end
  end.

Fixpoint sep_free (s : string) : bool :=
  match s with
  | EmptyString => true
  | String c s' => negb (is_sep c) && sep_free s'
  end.

(** A segment that [normalizeString] keeps as it is. *)
Definition plain (seg : string) : bool :=
  negb (bool_decide (seg = "")) && negb (bool_decide (seg = "."))
  && negb (bool_decide (seg = "..")) && sep_free seg.

(** The absolute path with the segments [segs].  [path.resolve] returns
    such a path with plain segments only: no empty, [.] or [..] segment
    and no trailing separator. *)
Definition absolute (segs : list string) : string := "/" +:+ unsplit segs.

(** [path.isAbsolute] *)
Definition isAbsolute (p : string) : bool := starts_with_sep p.

(** [path.basename(p)]: the last segment of [p] that is not empty, trailing
    separators being skipped; empty when there is none. *)
Definition basename (p : string) : string :=
  List.last (List.filter (fun seg => negb (bool_decide (seg = ""))) (split p)) "".

End Path.

(** ** The world outside the handler *)

(** A [Buffer]. *)
Abbreviation Buffer := (list Byte.byte).

(** The calls the handler makes to the file system and to the network,
    recorded in the order they are made. *)
Inductive call : Type :=
  | ReadFile (p : string)
  | Readdir (p : string)
  | HttpGet (url : string)
  | Mkdir (p : string)
  | WriteFile (p : string) (data : Buffer)
  | Unlink (p : string).

(** What a request cannot control: the answer of the remote origin and the
    faults of the file system while the request is served.
    [origin url] is the body of a 2xx answer, or [None] for any other status
    and for a transport error (superagent rejects in both cases).
    [written_before_fault p] says what a rejected [fsp.writeFile] on [p]
    leaves: [None] when the file could not be opened, and the number of
    bytes written before the fault when it was.  [other_entries dir] are the
    names of the entries of [dir] that are no regular files. *)
Record env : Type := Env {
  origin : string -> option Buffer;
  mkdir_ok : string -> bool;
  writeFile_ok : string -> bool;
  readdir_ok : string -> bool;
  written_before_fault : string -> option nat;
  other_entries : string -> list string
}.

(** The regular files on disk, by path, and the calls made so far. *)
Record world : Type := World {
  files : gmap string Buffer;
  calls : list call
}.

Definition record (c : call) (w : world) : world :=
  World (files w) (calls w ++ [c]).

(** A promise: it reads the environment, changes the world and either
    resolves to a value or rejects ([None]). *)
Definition io (A : Type) : Type := env -> world -> option A * world.

Definition resolve {A} (a : A) : io A := fun _ w => (Some a, w).

Definition await {A B} (m : io A) (k : A -> io B) : io B :=
  fun e w =>
    match m e w with
    | (Some a, w') => k a e w'
    | (None, w') => (None, w')
    end.

(** [try { m } catch { h }] *)
Definition try_catch {A} (m h : io A) : io A :=
  fun e w =>
    match m e w with
    | (Some a, w') => (Some a, w')
    | (None, w') => h e w'
    end.

Declare Scope io_scope.
Delimit Scope io_scope with io.
Notation "'let!' x ':=' m 'in' k" := (await m (fun x => k))
  (at level 10, x name, m at level 100, k at level 200) : io_scope.
Notation "m ';;!' k" := (await m (fun _ => k))
  (at level 100, k at level 200, right associativity) : io_scope.
Notation "'try' m 'catch' h" := (try_catch m h)
  (at level 10, m at level 200, h at level 200) : io_scope.

(** [fsp.readFile(p)]: rejects when there is no such file. *)
Definition readFile (p : string) : io Buffer :=
  fun _ w => (files w !! p, record (ReadFile p) w).

(** [superagent.get(url).ok(2xx).responseType('blob').buffer(true)],
    followed by [Buffer.from(r.body)]. *)
Definition superagent_get (url : string) : io Buffer :=
  fun e w => (origin e url, record (HttpGet url) w).

(** [fsp.mkdir(p, { recursive: true })] *)
Definition mkdir (p : string) : io unit :=
  fun e w =>
    (if mkdir_ok e p then Some () else None, record (Mkdir p) w).

(** [fsp.writeFile(p, data)]: opens [p] for writing, which empties it, and
    writes [data].  When it rejects, either the file could not be opened and
    the directory is as it was, or the file holds the bytes of [data] that
    were written before the fault. *)
Definition writeFile (p : string) (data : Buffer) : io unit :=
  fun e w =>
    if writeFile_ok e p then
      (Some (), World (<[p := data]> (files w)) (calls w ++ [WriteFile p data]))
    else
      (None,
       World match written_before_fault e p with
             | None => files w
             | Some n => <[p := take n data]> (files w)
             end
             (calls w ++ [WriteFile p data])).

(** [fsp.unlink(p)]: rejects when there is no such file. *)
Definition unlink (p : string) : io unit :=
  fun _ w =>
    match files w !! p with
    | Some _ => (Some (), World (delete p (files w)) (calls w ++ [Unlink p]))
    | None => (None, record (Unlink p) w)
    end.

(** An [fs.Dirent]: the name of a directory entry and whether it is a
    regular file. *)
Module Dirent.
Record t : Type := Make { name : string; isFile : bool }.
End Dirent.

(** The names [n] for which [dir/n] is a regular file of the world. *)
Definition files_in (dir : string) (w : world) : list string :=
  omap (fun p =>
          let n := List.last (Path.split p) "" in
          if bool_decide (n <> "") && bool_decide (Path.join dir n = p)
          then Some n else None)
       (map fst (map_to_list (files w))).

(** [fsp.readdir(dir, { withFileTypes: true })]: the regular files of [dir]
    and its other entries (directories, links and so on). *)
Definition readdir (dir : string) : io (list Dirent.t) :=
  fun e w =>
    if readdir_ok e dir then
      (Some (((fun n => Dirent.Make n true) <$> files_in dir w)
             ++ ((fun n => Dirent.Make n false) <$> other_entries e dir)),
       record (Readdir dir) w)
    else (None, record (Readdir dir) w).

(** ** Requests and responses *)

(** The values of the fields of the JSON objects the server sends. *)
Inductive jvalue : Type :=
  | JBool (b : bool)
  | JNum (n : Z)
  | JStr (s : string).

(** What [res.end] is given.  [Json fields] stands for the text that
    [JSON.stringify] makes of the object with these fields in this order,
    and [IndexPage] for the fixed HTML page around the number and the names
    of the cached files. *)
Inductive body : Type :=
  | NoBody
  | Text (s : string)
  | IndexPage (names : list string)
  | Bytes (b : Buffer)
  | Json (fields : list (string * jvalue)).

Record response : Type := Response {
  status : Z;
  headers : list (string * string);
  content : body
}.

(** [req.method], the decoded [pathname] of [req.url], and the chunks of
    the request body concatenated. *)
Record request : Type := Request {
  method : string;
  pathname : string;
  payload : Buffer
}.

(** What [parseUrl(req.url || '/', true)] does, [url.parse] itself being
    Node's: it throws, or it returns an object whose [pathname] is a string
    or [null]. *)
Inductive parsed : Type :=
  | ParseError
  | Parsed (pathname : option string).

(** A request as it comes in: [req.method], what parsing [req.url] gives,
    and the chunks of the request body concatenated. *)
Record incoming : Type := Incoming {
  in_method : string;
  in_url : parsed;
  in_payload : Buffer
}.

(** The first two statements of the callbacks: the parsed URL, then
    [decodeURIComponent(parsed.pathname || '/')]; [None] where either
    throws. *)
Definition decoded_pathname (url : parsed) : option string :=
  match url with
  | ParseError => None
  | Parsed (Some (String c s)) => Js.decodeURIComponent (String c s)
  | Parsed (Some EmptyString) | Parsed None => Js.decodeURIComponent "/"
  end.

(** A promise that rejects at once. *)
Definition throw {A} : io A := fun _ w => (None, w).

(** The three [res.setHeader] calls made for every request. *)
Definition cors : list (string * string) :=
  [("Access-Control-Allow-Origin", "*");
   ("Access-Control-Allow-Methods", "GET,PUT,DELETE,OPTIONS");
   ("Access-Control-Allow-Headers", "Content-Type")].

(** [res.writeHead(st, { 'Content-Type': ty }); res.end(b)] *)
Definition send (st : Z) (ty : string) (b : body) : response :=
  Response st (cors ++ [("Content-Type", ty)]) b.

Definition application_json : string := "application/json; charset=utf-8".

Definition error (msg : string) : body := Json [("error", JStr msg)].

(** ** The server *)

(** [const HTTP_CAT_URL = (code) => `https://http.cat/${code}.jpg`;] *)
Definition HTTP_CAT_URL (code : string) : string :=
  "https://http.cat/" +:+ code +:+ ".jpg".

Section Server.

(** [const CACHE_DIR = path.resolve(cache);] *)
Variable CACHE_DIR : string.

(** [const fileForCode = (code) => path.join(CACHE_DIR, `${code}.jpg`);] *)
Definition fileForCode (code : string) : string :=
  Path.join CACHE_DIR (code +:+ ".jpg").

Local Open Scope io_scope.

Definition listCacheFiles : io (list string) :=
  try (let! items := readdir CACHE_DIR in
       resolve (Js.sort (Dirent.name <$> List.filter Dirent.isFile items)))
  catch resolve [].

(** The GET branch of the [/<code>] route. *)
Definition get (code filePath : string) : io response :=
  try (let! buf := readFile filePath in
       resolve (send 200 "image/jpeg" (Bytes buf)))
  catch
    (try (let! body := superagent_get (HTTP_CAT_URL code) in
          mkdir (Path.dirname filePath) ;;!
          writeFile filePath body ;;!
          resolve (send 200 "image/jpeg" (Bytes body)))
     catch
       resolve (send 404 application_json
                  (error "not found (cache and http.cat failed)"))).

(** The PUT branch, run when the request body has ended. *)
Definition put (code filePath : string) (body : Buffer) : io response :=
  try (mkdir (Path.dirname filePath) ;;!
       writeFile filePath body ;;!
       resolve (send 201 application_json
                  (Json [("ok", JBool true);
                         ("saved", JStr (code +:+ ".jpg"));
                         ("bytes", JNum (Z.of_nat (List.length body)))])))
  catch resolve (send 500 application_json (error "write failed")).

(** The DELETE branch. *)
Definition del (code filePath : string) : io response :=
  try (unlink filePath ;;!
       resolve (send 200 application_json
                  (Json [("ok", JBool true);
                         ("deleted", JStr (code +:+ ".jpg"))])))
  catch resolve (send 404 application_json (error "not found")).

(** The callback of [http.createServer] from its third statement on, for
    the [pathname] that the first two have decoded. *)
Definition server (req : request) : io response :=
  if bool_decide (method req = "OPTIONS") then
    resolve (Response 204 cors NoBody)
  else if bool_decide (method req = "GET")
          && bool_decide (pathname req = "/health") then
    resolve (send 200 "text/plain; charset=utf-8" (Text "OK"))
  else if bool_decide (method req = "GET")
          && bool_decide (pathname req = "/") then
    let! names := listCacheFiles in
    resolve (send 200 "text/html; charset=utf-8" (IndexPage names))
  else if Js.test routeRegex (pathname req) then
    let code := Js.slice 1 (pathname req) in
    if negb (Js.test codeRegex code) then
      resolve (send 400 application_json (error "bad code"))
    else
      let filePath := fileForCode code in
      if bool_decide (method req = "GET") then get code filePath
      else if bool_decide (method req = "PUT") then
        put code filePath (payload req)
      else if bool_decide (method req = "DELETE") then del code filePath
      else resolve (send 405 application_json (error "method not allowed"))
  else resolve (send 404 application_json (error "not found")).

(** The whole callback of [http.createServer]: the pathname is parsed and
    decoded outside every [try], so an error thrown there rejects the
    promise of the callback before anything is sent or called. *)
Definition requestListener (req : incoming) : io response :=
  match decoded_pathname (in_url req) with
  | None => throw
  | Some pathname => server (Request (in_method req) pathname (in_payload req))
  end.

(** What [server] runs on [/<code>] once the method is not [OPTIONS]. *)
Definition on_key (m code : string) (data : Buffer) : io response :=
  let filePath := fileForCode code in
  if bool_decide (m = "GET") then get code filePath
  else if bool_decide (m = "PUT") then put code filePath data
  else if bool_decide (m = "DELETE") then del code filePath
  else resolve (send 405 application_json (error "method not allowed")).

(** Requests served one after the other, each under its own faults. *)
Fixpoint serve (reqs : list (env * request)) (w : world)
  : list (option response) * world :=
  match reqs with
  | [] => ([], w)
  | (e, req) :: reqs' =>
      let '(r, w') := server req e w in
      let '(rs, w'') := serve reqs' w' in
      (r :: rs, w'')
  end.

End Server.

(** The origin requests among the calls. *)
Definition fetches (cs : list call) : list string :=
  omap (fun c => match c with HttpGet url => Some url | _ => None end) cs.

(** The statuses that the handlers of the keys answer with. *)
Definition key_statuses : list Z := [200; 201; 404; 405; 500].

(** ** Fixtures *)

(** No fault of the file system, and an origin that is down. *)
Definition origin_down : env :=
  Env (fun _ => None) (fun _ => true) (fun _ => true) (fun _ => true)
    (fun _ => None) (fun _ => []).

(** No fault of the file system, and an origin that serves [body]. *)
Definition origin_serves (body : Buffer) : env :=
  Env (fun _ => Some body) (fun _ => true) (fun _ => true) (fun _ => true)
    (fun _ => None) (fun _ => []).

(** An origin that serves [body] while [fsp.writeFile] rejects without
    having opened the file: not even an empty file can be made. *)
Definition disk_full (body : Buffer) : env :=
  Env (fun _ => Some body) (fun _ => true) (fun _ => false) (fun _ => true)
    (fun _ => None) (fun _ => []).

(** An origin that is down while [fsp.writeFile] opens the file, which
    empties it, and rejects after [n] bytes. *)
Definition write_cut_at (n : nat) : env :=
  Env (fun _ => None) (fun _ => true) (fun _ => false) (fun _ => true)
    (fun _ => Some n) (fun _ => []).

(** PUT requests on the key [code], one for each body, each with the
    faults it is served under. *)
Definition puts (code : string) (bodies : list (env * Buffer))
  : list (env * request) :=
  (fun eb => (eb.1, Request "PUT" ("/" +:+ code) eb.2)) <$> bodies.

(** An empty cache directory. *)
Definition empty_cache : world := World ∅ [].

(** A cache directory that holds [buf] for the key [200]. *)
Definition cache_with_200 (buf : Buffer) : world :=
  World {["/srv/cache/200.jpg" := buf]} [].

(** ** The two earlier versions of the server *)

(** Version 1.1.0: the same routes on a cache without a remote origin. *)
Module V1_1.

Section Server.

Variable CACHE_DIR : string.

Local Open Scope io_scope.

(** The GET branch of the [/<code>] route. *)
Definition get (filePath : string) : io response :=
  try (let! buf := readFile filePath in
       resolve (send 200 "image/jpeg" (Bytes buf)))
  catch resolve (send 404 application_json (error "not found")).

(** The callback of [http.createServer] from its third statement on;
    [listCacheFiles], [fileForCode], [codeRegex] and the PUT and DELETE
    branches read as in the last version, and [IndexPage] stands for the
    page of this version. *)
Definition server (req : request) : io response :=
  if bool_decide (method req = "OPTIONS") then
    resolve (Response 204 cors NoBody)
  else if bool_decide (method req = "GET")
          && bool_decide (pathname req = "/health") then
    resolve (send 200 "text/plain; charset=utf-8" (Text "OK"))
  else if bool_decide (method req = "GET")
          && bool_decide (pathname req = "/") then
    let! names := listCacheFiles CACHE_DIR in
    resolve (send 200 "text/html; charset=utf-8" (IndexPage names))
  else if Js.test routeRegex (pathname req) then
    let code := Js.slice 1 (pathname req) in
    if negb (Js.test codeRegex code) then
      resolve (send 400 application_json (error "bad code"))
    else
      let filePath := fileForCode CACHE_DIR code in
      if bool_decide (method req = "GET") then get filePath
      else if bool_decide (method req = "PUT") then
        put code filePath (payload req)
      else if bool_decide (method req = "DELETE") then del code filePath
      else resolve (send 405 application_json (error "method not allowed"))
  else resolve (send 404 application_json (error "not found")).

(** The whole callback: [parseUrl(url, true)] and [decodeURIComponent] come
    first here too, outside every [try]. *)
Definition requestListener (req : incoming) : io response :=
  match decoded_pathname (in_url req) with
  | None => throw
  | Some pathname => server (Request (in_method req) pathname (in_payload req))
  end.

End Server.

End V1_1.

(** Version 1.0.0: files of any name under [/cache/<name>], read by GET and
    written by POST. *)
Module V1_0.

(** The three [res.setHeader] calls of this version. *)
Definition cors : list (string * string) :=
  [("Access-Control-Allow-Origin", "*");
   ("Access-Control-Allow-Methods", "GET,POST,OPTIONS");
   ("Access-Control-Allow-Headers", "Content-Type")].

(** [res.writeHead(st, { 'Content-Type': ty }); res.end(b)] *)
Definition send (st : Z) (ty : string) (b : body) : response :=
  Response st (cors ++ [("Content-Type", ty)]) b.

(** [sanitizeName]: returns the name, or throws ([None]) when it includes
    [..] or is absolute. *)
Definition sanitizeName (name : string) : option string :=
  let unsafe := Js.includes name ".." || Path.isAbsolute name in
  if unsafe then None else Some name.

Section Server.

Variable CACHE_DIR : string.

Local Open Scope io_scope.

(** [function cachePath(name) { return path.join(CACHE_DIR, name); }] *)
Definition cachePath (name : string) : string := Path.join CACHE_DIR name.

(** The GET branch of the [/cache/<name>] route. *)
Definition get (fullPath : string) : io response :=
  try (let! data := readFile fullPath in
       resolve (send 200 "application/octet-stream" (Bytes data)))
  catch resolve (send 404 application_json (error "Not found")).

(** The POST branch, run when the request body has ended. *)
Definition post (fullPath : string) (body : Buffer) : io response :=
  try (mkdir (Path.dirname fullPath) ;;!
       writeFile fullPath body ;;!
       resolve (send 201 application_json
                  (Json [("ok", JBool true);
                         ("saved", JStr (Path.basename fullPath));
                         ("bytes", JNum (Z.of_nat (List.length body)))])))
  catch resolve (send 500 application_json (error "Failed to write file")).

(** The callback of [http.createServer] from its third statement on;
    [listCacheFiles] reads as in the last version, and [IndexPage] stands
    for the page of this version. *)
Definition server (req : request) : io response :=
  if bool_decide (method req = "OPTIONS") then
    resolve (Response 204 cors NoBody)
  else if bool_decide (method req = "GET")
          && bool_decide (pathname req = "/health") then
    resolve (send 200 "text/plain; charset=utf-8" (Text "OK"))
  else if bool_decide (method req = "GET")
          && bool_decide (pathname req = "/") then
    let! names := listCacheFiles CACHE_DIR in
    resolve (send 200 "text/html; charset=utf-8" (IndexPage names))
  else if Js.startsWith (pathname req) "/cache/" then
    let name := Js.slice (String.length "/cache/") (pathname req) in
    match sanitizeName name with
    | None => resolve (send 400 application_json (error "Bad file name"))
    | Some safeName =>
        let fullPath := cachePath safeName in
        if bool_decide (method req = "GET") then get fullPath
        else if bool_decide (method req = "POST") then
          post fullPath (payload req)
        else resolve (send 405 application_json (error "Method not allowed"))
    end
  else resolve (send 404 application_json (error "Not found")).

(** The whole callback: [parseUrl(url, true)] and [decodeURIComponent] come
    first here too, outside every [try]. *)
Definition requestListener (req : incoming) : io response :=
  match decoded_pathname (in_url req) with
  | None => throw
  | Some pathname => server (Request (in_method req) pathname (in_payload req))
  end.

End Server.

End V1_0.

(** An environment without faults whose origin is the map [o]. *)
Definition no_fault (o : string -> option Buffer) : env :=
  Env o (fun _ => true) (fun _ => true) (fun _ => true)
    (fun _ => None) (fun _ => []).

(** * Properties *)

(** ** The regular expressions *)

Lemma codeRegex_shape (s : string) :
  Js.test codeRegex s = true <->
  exists a b c, s = String a (String b (String c EmptyString)) /\
    Js.is_digit a = true /\ Js.is_digit b = true /\ Js.is_digit c = true.
Proof.
  split.
  - destruct s as [|a [|b [|c [|d s]]]]; cbn; intros H;
      repeat (apply andb_prop in H; destruct H as [? H]);
      try discriminate.
    exists a, b, c. auto.
  - intros (a & b & c & -> & Ha & Hb & Hc). cbn. by rewrite Ha, Hb, Hc.
Qed.

Lemma routeRegex_shape (p : string) :
  Js.test routeRegex p = true <->
  exists code, p = String "/" code /\ Js.test codeRegex code = true.
Proof.
  split.
  - destruct p as [|c code]; [discriminate|].
    cbn [routeRegex Js.test Js.atom_matches]. intros H.
    apply andb_prop in H as [Hc H]. apply bool_decide_eq_true in Hc as ->.
    eauto.
  - intros (code & -> & H). cbn [routeRegex Js.test Js.atom_matches].
    by rewrite bool_decide_eq_true_2.
Qed.

Lemma slice_route (code : string) : Js.slice 1 (String "/" code) = code.
Proof. reflexivity. Qed.

Lemma route_of_key (code : string) :
  Js.test codeRegex code = true -> Js.test routeRegex ("/" +:+ code) = true.
Proof. intros H. apply routeRegex_shape. eauto. Qed.

Lemma no_route_of_bad_key (k : string) :
  Js.test codeRegex k = false -> Js.test routeRegex ("/" +:+ k) = false.
Proof.
  intros H. apply not_true_is_false. intros Hr.
  change ("/" +:+ k) with (String "/" k) in Hr.
  apply routeRegex_shape in Hr as (code & Heq & Hc).
  injection Heq as ->. congruence.
Qed.

(** ** The handler on the route of a key *)

Section Handler.

Variable CACHE_DIR : string.

Lemma server_on_key (m code : string) (data : Buffer) :
  Js.test codeRegex code = true ->
  m <> "OPTIONS" ->
  server CACHE_DIR (Request m ("/" +:+ code) data)
= on_key CACHE_DIR m code data.
Proof.
  intros Hcode Hm. unfold server, on_key.
  cbn [method pathname payload].
  rewrite (bool_decide_eq_false_2 _ Hm).
  rewrite route_of_key by done.
  change (Js.slice 1 ("/" +:+ code)) with code. rewrite Hcode.
  apply codeRegex_shape in Hcode as (a & b & c & -> & _).
  rewrite !(bool_decide_eq_false_2 (_ = "/health")) by discriminate.
  rewrite !(bool_decide_eq_false_2 (_ = "/")) by discriminate.
  by rewrite !andb_false_r.
Qed.

Lemma get_hit (code p : string) (buf : Buffer) (e : env) (w : world) :
  files w !! p = Some buf ->
  get code p e w = (Some (send 200 "image/jpeg" (Bytes buf)),
                    record (ReadFile p) w).
Proof.
  intros H. unfold get, try_catch, await, readFile, resolve. by rewrite H.
Qed.

Lemma get_miss_origin_down (code p : string) (e : env) (w : world) :
  files w !! p = None ->
  origin e (HTTP_CAT_URL code) = None ->
  get code p e w =
    (Some (send 404 application_json
             (error "not found (cache and http.cat failed)")),
     record (HttpGet (HTTP_CAT_URL code)) (record (ReadFile p) w)).
Proof.
  intros Hf Ho.
  unfold get, try_catch, await, readFile, superagent_get, resolve.
  by rewrite Hf, Ho.
Qed.

Lemma get_miss_populates (code p : string) (body : Buffer) (e : env) (w : world) :
  files w !! p = None ->
  origin e (HTTP_CAT_URL code) = Some body ->
  mkdir_ok e (Path.dirname p) = true ->
  writeFile_ok e p = true ->
  get code p e w =
    (Some (send 200 "image/jpeg" (Bytes body)),
     World (<[p := body]> (files w))
           (calls w ++ [ReadFile p] ++ [HttpGet (HTTP_CAT_URL code)]
              ++ [Mkdir (Path.dirname p)] ++ [WriteFile p body])).
Proof.
  intros Hf Ho Hm Hw.
  unfold get, try_catch, await, readFile, superagent_get, mkdir, writeFile,
    resolve.
  rewrite Hf, Ho, Hm. cbn. rewrite Hw. by rewrite <- !app_assoc.
Qed.

(** What a rejected write can have done: nothing to another file. *)
Lemma fault_elsewhere (p q : string) (data : Buffer) (e : env)
    (fs : gmap string Buffer) :
  q <> p ->
  match written_before_fault e p with
  | None => fs
  | Some n => <[p := take n data]> fs
  end !! q = fs !! q.
Proof.
  intros Hq. destruct (written_before_fault e p); [|done].
  by apply lookup_insert_ne.
Qed.

(** A fault of the write-back lands in the handler of the fetch. *)
Lemma get_miss_write_fault (code p : string) (body : Buffer) (e : env) (w : world) :
  files w !! p = None ->
  origin e (HTTP_CAT_URL code) = Some body ->
  mkdir_ok e (Path.dirname p) && writeFile_ok e p = false ->
  exists w',
    get code p e w =
      (Some (send 404 application_json
               (error "not found (cache and http.cat failed)")), w')
    /\ forall q, q <> p -> files w' !! q = files w !! q.
Proof.
  intros Hf Ho Hfault.
  unfold get, try_catch, await, readFile, superagent_get, mkdir, writeFile,
    resolve.
  rewrite Hf, Ho. cbn.
  destruct (mkdir_ok e (Path.dirname p)); cbn in *.
  - rewrite Hfault. eexists. split; [done|]. cbn. intros q Hq.
    by apply fault_elsewhere.
  - eauto.
Qed.

Lemma put_stores (code p : string) (data : Buffer) (e : env) (w : world) :
  mkdir_ok e (Path.dirname p) && writeFile_ok e p = true ->
  put code p data e w =
    (Some (send 201 application_json
             (Json [("ok", JBool true);
                    ("saved", JStr (code +:+ ".jpg"));
                    ("bytes", JNum (Z.of_nat (List.length data)))])),
     World (<[p := data]> (files w))
           (calls w ++ [Mkdir (Path.dirname p)] ++ [WriteFile p data])).
Proof.
  intros [Hm Hw]%andb_prop.
  unfold put, try_catch, await, mkdir, writeFile, resolve.
  rewrite Hm. cbn. rewrite Hw. by rewrite <- app_assoc.
Qed.

Lemma put_fault (code p : string) (data : Buffer) (e : env) (w : world) :
  mkdir_ok e (Path.dirname p) && writeFile_ok e p = false ->
  exists w',
    put code p data e w =
      (Some (send 500 application_json (error "write failed")), w')
    /\ forall q, q <> p -> files w' !! q = files w !! q.
Proof.
  intros Hfault.
  unfold put, try_catch, await, mkdir, writeFile, resolve.
  destruct (mkdir_ok e (Path.dirname p)); cbn in *.
  - rewrite Hfault. eexists. split; [done|]. cbn. intros q Hq.
    by apply fault_elsewhere.
  - eauto.
Qed.

Lemma del_present (code p : string) (buf : Buffer) (e : env) (w : world) :
  files w !! p = Some buf ->
  del code p e w =
    (Some (send 200 application_json
             (Json [("ok", JBool true);
                    ("deleted", JStr (code +:+ ".jpg"))])),
     World (delete p (files w)) (calls w ++ [Unlink p])).
Proof.
  intros H. unfold del, try_catch, await, unlink, resolve. by rewrite H.
Qed.

Lemma del_absent (code p : string) (e : env) (w : world) :
  files w !! p = None ->
  del code p e w =
    (Some (send 404 application_json (error "not found")),
     record (Unlink p) w).
Proof.
  intros H. unfold del, try_catch, await, unlink, resolve. by rewrite H.
Qed.

End Handler.

(** ** Paths below a resolved directory *)

Module PathFacts.

Import Path.

Lemma app_cons (c : ascii) (s t : string) :
  String c s +:+ t = String c (s +:+ t).
Proof. reflexivity. Qed.

Lemma app_assoc (s t u : string) : (s +:+ t) +:+ u = s +:+ t +:+ u.
Proof. induction s as [|c s IH]; [done|]. by rewrite !app_cons, IH. Qed.

Lemma app_inv_head (s t u : string) : s +:+ t = s +:+ u -> t = u.
Proof.
  induction s as [|c s IH]; [done|]. rewrite !app_cons. intros [= H]. auto.
Qed.

Lemma chars_app (s t : string) :
  String.list_ascii_of_string (s +:+ t) =
  String.list_ascii_of_string s ++ String.list_ascii_of_string t.
Proof.
  induction s as [|c s IH]; [done|]. rewrite app_cons. cbn. by rewrite IH.
Qed.

Lemma chars_length (s : string) :
  List.length (String.list_ascii_of_string s) = String.length s.
Proof. induction s as [|c s IH]; [done|]. cbn. by rewrite IH. Qed.

Lemma substring_app (s t : string) :
  String.substring 0 (String.length s) (s +:+ t) = s.
Proof.
  induction s as [|c s IH].
  - by destruct t.
  - rewrite app_cons. cbn. by rewrite IH.
Qed.

Lemma split_sep_free (s : string) : sep_free s = true -> split s = [s].
Proof.
  induction s as [|c s IH]; cbn; [done|].
  intros [Hc Hs]%andb_prop. apply negb_true_iff in Hc. rewrite Hc.
  by rewrite IH.
Qed.

Lemma split_app_sep (s t : string) :
  sep_free s = true -> split (s +:+ "/" +:+ t) = s :: split t.
Proof.
  induction s as [|c s IH]; [done|]. rewrite app_cons. cbn.
  intros [Hc Hs]%andb_prop. apply negb_true_iff in Hc. rewrite Hc.
  by rewrite IH.
Qed.

Lemma plain_sep_free (seg : string) : plain seg = true -> sep_free seg = true.
Proof. unfold plain. by intros [_ ?]%andb_prop. Qed.

Lemma plain_nonempty (seg : string) : plain seg = true -> seg <> "".
Proof.
  unfold plain. intros [[[H _]%andb_prop _]%andb_prop _]%andb_prop.
  by apply negb_true_iff, bool_decide_eq_false in H.
Qed.

Lemma unsplit_snoc (segs : list string) (name : string) :
  unsplit (segs ++ [name]) =
  match segs with
  | [] => name
  | _ => unsplit segs +:+ "/" +:+ name
  end.
Proof.
  induction segs as [|seg segs IH]; [done|].
  cbn [app unsplit]. rewrite IH.
  destruct segs as [|seg' segs]; [done|].
  cbn [app]. by rewrite !app_assoc.
Qed.

Lemma unsplit_nonempty (seg : string) (segs : list string) :
  seg <> "" -> unsplit (seg :: segs) <> "".
Proof. destruct seg, segs; cbn; rewrite ?app_cons; congruence. Qed.

Lemma split_unsplit_snoc (segs : list string) (name : string) :
  forallb plain segs = true ->
  sep_free name = true ->
  split (unsplit segs +:+ "/" +:+ name) =
  match segs with
  | [] => [""]
  | _ => segs
  end ++ [name].
Proof.
  intros Hsegs Hname. induction segs as [|seg segs IH].
  - change (unsplit [] +:+ "/" +:+ name) with (String "/" name).
    cbn. by rewrite split_sep_free.
  - cbn in Hsegs. apply andb_prop in Hsegs as [Hseg Hsegs].
    specialize (IH Hsegs). destruct segs as [|seg' segs].
    + cbn [unsplit app]. rewrite split_app_sep by by apply plain_sep_free.
      by rewrite split_sep_free.
    + change (unsplit (seg :: seg' :: segs))
        with (seg +:+ "/" +:+ unsplit (seg' :: segs)).
      rewrite !app_assoc. rewrite split_app_sep by by apply plain_sep_free.
      by rewrite IH.
Qed.

(** Plain segments are kept, empty ones dropped. *)
Lemma normalizeString_plain (allow : bool) (res segs : list string) :
  forallb (fun seg => bool_decide (seg = "") || plain seg) segs = true ->
  normalizeString allow res segs =
  rev res ++ List.filter (fun seg => negb (bool_decide (seg = ""))) segs.
Proof.
  revert res. induction segs as [|seg segs IH]; intros res Hsegs.
  - cbn. by rewrite List.app_nil_r.
  - cbn in Hsegs. apply andb_prop in Hsegs as [Hseg Hsegs].
    cbn [normalizeString List.filter].
    destruct (bool_decide (seg = "")) eqn:He; cbn [orb negb].
    + by apply IH.
    + cbn in Hseg. unfold plain in Hseg. rewrite He in Hseg. cbn in Hseg.
      apply andb_prop in Hseg as [[Hdot Hdots]%andb_prop _].
      apply negb_true_iff in Hdot, Hdots. rewrite Hdot, Hdots.
      rewrite IH by done. cbn. by rewrite <- List.app_assoc.
Qed.

Lemma filter_plain (segs : list string) :
  forallb plain segs = true ->
  List.filter (fun seg => negb (bool_decide (seg = ""))) segs = segs.
Proof.
  induction segs as [|seg segs IH]; [done|].
  cbn. intros [Hseg Hsegs]%andb_prop.
  rewrite (bool_decide_eq_false_2 _ (plain_nonempty _ Hseg)). cbn.
  by rewrite IH.
Qed.

Lemma ends_with_sep_app (s t : string) :
  t <> "" -> ends_with_sep (s +:+ t) = ends_with_sep t.
Proof.
  intros Ht. induction s as [|c s IH]; [done|].
  rewrite app_cons. cbn. rewrite IH. destruct (s +:+ t) eqn:E; [|done].
  exfalso. destruct s as [|c' s]; [by apply Ht|by rewrite app_cons in E].
Qed.

Lemma ends_with_sep_free (s : string) :
  sep_free s = true -> ends_with_sep s = false.
Proof.
  induction s as [|c s IH]; [done|].
  cbn. intros [Hc Hs]%andb_prop. apply negb_true_iff in Hc.
  destruct s; [done|]. by apply IH.
Qed.

(** [path.join] of a resolved directory and one plain name. *)
Lemma join_child (segs : list string) (name : string) :
  forallb plain segs = true ->
  plain name = true ->
  join (absolute segs) name = absolute (segs ++ [name]).
Proof.
  intros Hsegs Hname.
  pose proof (plain_nonempty _ Hname) as Hne.
  pose proof (plain_sep_free _ Hname) as Hfree.
  unfold join. cbn [foldl]. change (absolute segs) with (String "/" (unsplit segs)).
  rewrite (bool_decide_eq_false_2 (String _ _ = "")) by done.
  rewrite (bool_decide_eq_false_2 _ Hne).
  unfold normalize.
  rewrite (bool_decide_eq_false_2 (_ = "")) by done.
  change (String "/" (unsplit segs) +:+ "/" +:+ name)
    with (String "/" (unsplit segs +:+ "/" +:+ name)).
  cbn [starts_with_sep split]. change (is_sep "/") with true. cbn [negb].
  rewrite split_unsplit_snoc by done.
  assert (ends_with_sep (String "/" (unsplit segs +:+ "/" +:+ name)) = false)
    as ->.
  { replace (String "/" (unsplit segs +:+ "/" +:+ name))
      with (String "/" (unsplit segs +:+ "/") +:+ name)
      by (by rewrite app_cons, app_assoc).
    rewrite ends_with_sep_app by done. by apply ends_with_sep_free. }
  rewrite normalizeString_plain; last first.
  { cbn. rewrite forallb_app. cbn. rewrite Hname, !orb_true_r, andb_true_r.
    destruct segs as [|seg segs]; [done|].
    apply forallb_forall. intros x Hx.
    rewrite (proj1 (forallb_forall _ _) Hsegs x Hx). apply orb_true_r. }
  set (keep := fun seg : string => negb (bool_decide (seg = ""))).
  assert (rev [] ++ List.filter keep
            ("" :: match segs with [] => [""] | _ => segs end ++ [name])
          = segs ++ [name]) as ->.
  { change (rev [] ++ List.filter keep
              ("" :: match segs with [] => [""] | _ => segs end ++ [name]))
      with (List.filter keep
              (match segs with [] => [""] | _ => segs end ++ [name])).
    rewrite List.filter_app. f_equal.
    - destruct segs as [|seg segs]; [done|]. by apply filter_plain.
    - unfold keep. cbn. by rewrite (bool_decide_eq_false_2 _ Hne). }
  rewrite bool_decide_eq_false_2; [done|].
  destruct segs as [|seg segs]; [done|].
  cbn in Hsegs. apply andb_prop in Hsegs as [Hseg _].
  apply unsplit_nonempty. by apply plain_nonempty.
Qed.

Lemma sep_free_chars (s : string) :
  sep_free s = true ->
  forallb (fun c => negb (is_sep c)) (rev (String.list_ascii_of_string s))
  = true.
Proof.
  intros H. apply forallb_forall. intros c Hc. apply in_rev in Hc.
  induction s as [|d s IH]; [done|].
  cbn in H, Hc. apply andb_prop in H as [Hd Hs].
  destruct Hc as [<-|Hc]; auto.
Qed.

(** The scan steps over the last segment and forgets a trailing
    separator it has not seen. *)
Lemma dirname_scan_skip (cs rest : list ascii) (matched : bool) :
  forallb (fun c => negb (is_sep c)) cs = true ->
  cs <> [] ->
  dirname_scan (cs ++ rest) matched = dirname_scan rest false.
Proof.
  revert matched. induction cs as [|c cs IH]; intros matched Hcs Hne; [done|].
  cbn in Hcs. apply andb_prop in Hcs as [Hc Hcs].
  apply negb_true_iff in Hc. cbn. rewrite Hc.
  destruct cs as [|c' cs]; [done|]. by apply IH.
Qed.

(** [path.dirname] of a child of a resolved directory is the directory. *)
Lemma dirname_child (segs : list string) (name : string) :
  forallb plain segs = true ->
  plain name = true ->
  dirname (absolute (segs ++ [name])) = absolute segs.
Proof.
  intros Hsegs Hname.
  pose proof (plain_nonempty _ Hname) as Hne.
  pose proof (plain_sep_free _ Hname) as Hfree.
  unfold absolute. rewrite unsplit_snoc.
  destruct segs as [|seg segs].
  - change ("/" +:+ name) with (String "/" name). unfold dirname.
    rewrite <- (List.app_nil_r (rev _)).
    rewrite dirname_scan_skip; [done|by apply sep_free_chars|].
    destruct name; [done|]. cbn. intros H%app_eq_nil. by destruct H.
  - set (dir := unsplit (seg :: segs)).
    change ("/" +:+ dir +:+ "/" +:+ name)
      with (String "/" (dir +:+ "/" +:+ name)).
    unfold dirname.
    rewrite !chars_app, !rev_app_distr, <- List.app_assoc.
    rewrite dirname_scan_skip; [|by apply sep_free_chars|]; last first.
    { destruct name; [done|]. cbn. intros H%app_eq_nil. by destruct H. }
    cbn [String.list_ascii_of_string rev app dirname_scan].
    change (is_sep "/") with true. cbn [andb].
    rewrite length_rev, chars_length.
    assert (String.length dir <> 0%nat) as Hlen.
    { cbn in Hsegs. apply andb_prop in Hsegs as [Hseg _].
      pose proof (unsplit_nonempty seg segs (plain_nonempty _ Hseg)) as Hd.
      fold dir in Hd. by destruct dir. }
    rewrite bool_decide_eq_false_2 by lia.
    change (String.substring 0 (S (String.length dir))
              (String "/" (dir +:+ "/" +:+ name)))
      with (String "/" (String.substring 0 (String.length dir)
                          (dir +:+ "/" +:+ name))).
    by rewrite substring_app.
Qed.

(** The file name of a key is a plain segment. *)
Lemma digit_not_sep (c : ascii) : Js.is_digit c = true -> is_sep c = false.
Proof.
  intros H. unfold is_sep. apply bool_decide_eq_false. by intros ->.
Qed.

Lemma plain_key (code : string) :
  Js.test codeRegex code = true -> plain (code +:+ ".jpg") = true.
Proof.
  intros (a & b & c & -> & Ha & Hb & Hc)%codeRegex_shape.
  unfold plain. rewrite !app_cons.
  rewrite !bool_decide_eq_false_2 by discriminate.
  cbn. by rewrite !digit_not_sep.
Qed.

Lemma key_of_name (k k' : string) :
  Js.test codeRegex k = true -> Js.test codeRegex k' = true ->
  k +:+ ".jpg" = k' +:+ ".jpg" -> k = k'.
Proof.
  intros (a & b & c & -> & _)%codeRegex_shape
         (a' & b' & c' & -> & _)%codeRegex_shape.
  rewrite !app_cons. congruence.
Qed.

End PathFacts.

(** ** Every request is answered *)

Section Answers.

Variable CACHE_DIR : string.

Lemma on_key_answers (m code : string) (data : Buffer) (e : env) (w : world) :
  exists r w',
    on_key CACHE_DIR m code data e w = (Some r, w') /\
    status r ∈ key_statuses.
Proof.
  unfold on_key. set (p := fileForCode CACHE_DIR code).
  repeat case_bool_decide.
  - destruct (files w !! p) as [buf|] eqn:Hf.
    { rewrite (get_hit _ _ buf) by done.
      do 2 eexists. split; [done|]. set_solver. }
    destruct (origin e (HTTP_CAT_URL code)) as [body|] eqn:Ho.
    + destruct (mkdir_ok e (Path.dirname p) && writeFile_ok e p) eqn:Hw.
      * apply andb_prop in Hw as [Hm Hw].
        rewrite (get_miss_populates _ _ body) by done.
        do 2 eexists. split; [done|]. set_solver.
      * destruct (get_miss_write_fault code p body e w) as (w' & -> & _);
          try done.
        do 2 eexists. split; [done|]. set_solver.
    + rewrite get_miss_origin_down by done.
      do 2 eexists. split; [done|]. set_solver.
  - destruct (mkdir_ok e (Path.dirname p) && writeFile_ok e p) eqn:Hw.
    + rewrite put_stores by done. do 2 eexists. split; [done|]. set_solver.
    + destruct (put_fault code p data e w) as (w' & -> & _); [done|].
      do 2 eexists. split; [done|]. set_solver.
  - destruct (files w !! p) as [buf|] eqn:Hf.
    + rewrite (del_present _ _ buf) by done.
      do 2 eexists. split; [done|]. set_solver.
    + rewrite del_absent by done. do 2 eexists. split; [done|]. set_solver.
  - do 2 eexists. split; [done|]. set_solver.
Qed.

Lemma listCacheFiles_answers (e : env) (w : world) :
  exists names,
    listCacheFiles CACHE_DIR e w = (Some names, record (Readdir CACHE_DIR) w).
Proof.
  unfold listCacheFiles, try_catch, await, readdir, resolve.
  destruct (readdir_ok e CACHE_DIR); eauto.
Qed.

(** The handler answers every request, and never with 400. *)
Lemma server_answers (req : request) (e : env) (w : world) :
  exists r w',
    server CACHE_DIR req e w = (Some r, w') /\
    status r ∈ 204 :: key_statuses.
Proof.
  destruct req as [m p data].
  destruct (decide (m = "OPTIONS")) as [->|Hm].
  { do 2 eexists. split; [done|]. set_solver. }
  destruct (Js.test routeRegex p) eqn:Hroute.
  - apply routeRegex_shape in Hroute as (code & -> & Hcode).
    change (String "/" code) with ("/" +:+ code).
    rewrite server_on_key by done.
    destruct (on_key_answers m code data e w) as (r & w' & -> & Hr).
    do 2 eexists. split; [done|]. by apply list_elem_of_further.
  - unfold server. cbn [method pathname payload].
    rewrite (bool_decide_eq_false_2 _ Hm), Hroute.
    destruct (bool_decide (m = "GET") && bool_decide (p = "/health")).
    { do 2 eexists. split; [done|]. set_solver. }
    destruct (bool_decide (m = "GET") && bool_decide (p = "/")).
    + unfold await.
      destruct (listCacheFiles_answers e w) as (names & ->).
      do 2 eexists. split; [done|]. set_solver.
    + do 2 eexists. split; [done|]. set_solver.
Qed.

Lemma serve_app (reqs1 reqs2 : list (env * request)) (w : world) :
  serve CACHE_DIR (reqs1 ++ reqs2) w =
  let (rs1, w1) := serve CACHE_DIR reqs1 w in
  let (rs2, w2) := serve CACHE_DIR reqs2 w1 in
  (rs1 ++ rs2, w2).
Proof.
  revert w. induction reqs1 as [|[e req] reqs1 IH]; intros w.
  - cbn. by destruct (serve CACHE_DIR reqs2 w).
  - cbn. destruct (server CACHE_DIR req e w) as [r w'].
    rewrite IH. destruct (serve CACHE_DIR reqs1 w') as [rs1 w1].
    by destruct (serve CACHE_DIR reqs2 w1).
Qed.

Lemma serve_snoc (reqs : list (env * request)) (e : env) (req : request)
    (w : world) :
  serve CACHE_DIR (reqs ++ [(e, req)]) w =
  let (rs, w1) := serve CACHE_DIR reqs w in
  let (r, w') := server CACHE_DIR req e w1 in
  (rs ++ [r], w').
Proof.
  rewrite serve_app. destruct (serve CACHE_DIR reqs w) as [rs w1]. cbn.
  by destruct (server CACHE_DIR req e w1).
Qed.

End Answers.

(** ** The scenarios of the specification, run on the model *)

(** Empty cache, key [200], the origin answers [01 02 03]: the GET is
    answered 200 with these bytes and [200.jpg] then holds them. *)
Example scenario_read_through :
  let '(r, w) := server "/srv/cache" (Request "GET" "/200" [])
                   (origin_serves [Byte.x01; Byte.x02; Byte.x03]) empty_cache in
  r = Some (send 200 "image/jpeg" (Bytes [Byte.x01; Byte.x02; Byte.x03])) /\
  files w !! "/srv/cache/200.jpg" = Some [Byte.x01; Byte.x02; Byte.x03].
Proof. by split. Qed.

(** The file written by the read-through serves the next GET while the
    origin is down. *)
Example scenario_populated :
  (serve "/srv/cache"
     [(origin_serves [Byte.x01], Request "GET" "/200" []);
      (origin_down, Request "GET" "/200" [])] empty_cache).1
  = [Some (send 200 "image/jpeg" (Bytes [Byte.x01]));
     Some (send 200 "image/jpeg" (Bytes [Byte.x01]))].
Proof. reflexivity. Qed.

(** PUT [/404] with body [FF], then GET [/404]. *)
Example scenario_put_get :
  (serve "/srv/cache"
     [(origin_down, Request "PUT" "/404" [Byte.xff]);
      (origin_down, Request "GET" "/404" [])] empty_cache).1
  = [Some (send 201 application_json
             (Json [("ok", JBool true); ("saved", JStr "404.jpg");
                    ("bytes", JNum 1)]));
     Some (send 200 "image/jpeg" (Bytes [Byte.xff]))].
Proof. reflexivity. Qed.

(** DELETE [/999] when [999.jpg] does not exist. *)
Example scenario_delete_absent :
  (server "/srv/cache" (Request "DELETE" "/999" []) origin_down empty_cache).1
  = Some (send 404 application_json (error "not found")).
Proof. reflexivity. Qed.

(** DELETE then GET: the origin decides. *)
Example scenario_delete_get :
  (serve "/srv/cache"
     [(origin_down, Request "DELETE" "/200" []);
      (origin_down, Request "GET" "/200" [])] (cache_with_200 [Byte.xff])).1
  = [Some (send 200 application_json
             (Json [("ok", JBool true); ("deleted", JStr "200.jpg")]));
     Some (send 404 application_json
             (error "not found (cache and http.cat failed)"))].
Proof. reflexivity. Qed.

(** A pathname with a malformed escape: [decodeURIComponent] throws before
    the first [try], the promise of the callback rejects and nothing is
    sent. *)
Example scenario_malformed_escape :
  requestListener "/srv/cache" (Incoming "GET" (Parsed (Some "/%")) []) origin_down
    (cache_with_200 [Byte.xff])
  = (None, cache_with_200 [Byte.xff]).
Proof. reflexivity. Qed.

(** An escaped key is the key: [/%32%30%30] is [/200]. *)
Example scenario_escaped_key :
  (requestListener "/srv/cache" (Incoming "GET" (Parsed (Some "/%32%30%30")) [])
     origin_down (cache_with_200 [Byte.xff])).1
  = Some (send 200 "image/jpeg" (Bytes [Byte.xff])).
Proof. reflexivity. Qed.

(** A PUT whose write is cut after the file was opened is answered 500 and
    leaves the entry emptied: the next GET serves no byte. *)
Example scenario_cut_write :
  (serve "/srv/cache"
     [(write_cut_at 0, Request "PUT" "/200" [Byte.x01; Byte.x02]);
      (origin_down, Request "GET" "/200" [])] (cache_with_200 [Byte.xff])).1
  = [Some (send 500 application_json (error "write failed"));
     Some (send 200 "image/jpeg" (Bytes []))].
Proof. reflexivity. Qed.

(** * The claims of the specification *)

(** C1, as the code has it: a cache miss on key [200], the origin answers
    [01 02 03], and the write-back rejects.  The handler of the fetch
    catches the rejection and the caller is answered 404 with the message of
    a failed fetch, not 200 with the fetched bytes. *)
Theorem get_write_back_fault_is_404 :
  server "/srv/cache" (Request "GET" "/200" [])
    (disk_full [Byte.x01; Byte.x02; Byte.x03]) empty_cache
  = (Some (send 404 application_json
             (error "not found (cache and http.cat failed)")),
     World ∅ [ReadFile "/srv/cache/200.jpg";
              HttpGet "https://http.cat/200.jpg";
              Mkdir "/srv/cache";
              WriteFile "/srv/cache/200.jpg" [Byte.x01; Byte.x02; Byte.x03]]).
Proof. reflexivity. Qed.

(** C2, as the code has it: [abc] does not match [^\d{3}$], and a GET, a
    PUT and a DELETE on [/abc] are all answered by the fallback route, 404
    [{error:"not found"}], in an unchanged world, and not with the 400 of
    the claim: the guard that sends 400 [{error:"bad code"}] stands behind
    the route test, which lets three digits through and nothing else. *)
Theorem invalid_key_is_404_not_400 :
  Js.test codeRegex "abc" = false /\
  forall m, m ∈ ["GET"; "PUT"; "DELETE"] ->
    requestListener "/srv/cache" (Incoming m (Parsed (Some "/abc")) [Byte.xff])
      origin_down empty_cache
    = (Some (send 404 application_json (error "not found")), empty_cache).
Proof.
  split; [done|]. intros m Hm.
  repeat (apply elem_of_cons in Hm as [->|Hm]; [done|]).
  by apply elem_of_nil in Hm.
Qed.

(** C3: a GET on a valid key whose file is in the cache is answered 200
    with the bytes of the file; the only call made is the read of the file,
    so the origin is not consulted and the cache is left as it was. *)
Theorem get_hit_short_circuits
    (CACHE_DIR code : string) (buf data : Buffer) (e : env) (w : world) :
  Js.test codeRegex code = true ->
  files w !! fileForCode CACHE_DIR code = Some buf ->
  exists w',
    server CACHE_DIR (Request "GET" ("/" +:+ code) data) e w
    = (Some (send 200 "image/jpeg" (Bytes buf)), w') /\
    files w' = files w /\
    calls w' = calls w ++ [ReadFile (fileForCode CACHE_DIR code)] /\
    fetches (calls w') = fetches (calls w).
Proof.
  intros Hcode Hfile. rewrite server_on_key by done.
  unfold on_key. rewrite bool_decide_eq_true_2 by done.
  rewrite (get_hit _ _ buf) by done.
  eexists. split; [done|]. cbn. repeat split.
  unfold fetches. rewrite omap_app. cbn. by rewrite List.app_nil_r.
Qed.

Lemma get_hit_short_circuits_witness :
  exists w',
    server "/srv/cache" (Request "GET" ("/" +:+ "200") [])
      (origin_serves [Byte.x00]) (cache_with_200 [Byte.xff])
    = (Some (send 200 "image/jpeg" (Bytes [Byte.xff])), w') /\
    files w' = files (cache_with_200 [Byte.xff]) /\
    calls w' = calls (cache_with_200 [Byte.xff])
               ++ [ReadFile (fileForCode "/srv/cache" "200")] /\
    fetches (calls w') = fetches (calls (cache_with_200 [Byte.xff])).
Proof.
  apply (get_hit_short_circuits "/srv/cache" "200" [Byte.xff] []
           (origin_serves [Byte.x00]) (cache_with_200 [Byte.xff]));
    reflexivity.
Defined.


(** C4: a GET on a valid key whose file is not in the cache, while the
    origin fetch fails, is answered 404 and the cache keeps exactly the
    files it had: nothing is written. *)
Theorem get_miss_origin_down_is_404
    (CACHE_DIR code : string) (data : Buffer) (e : env) (w : world) :
  Js.test codeRegex code = true ->
  files w !! fileForCode CACHE_DIR code = None ->
  origin e (HTTP_CAT_URL code) = None ->
  exists w',
    server CACHE_DIR (Request "GET" ("/" +:+ code) data) e w
    = (Some (send 404 application_json
               (error "not found (cache and http.cat failed)")), w') /\
    files w' = files w /\
    files w' !! fileForCode CACHE_DIR code = None /\
    calls w' = calls w ++ [ReadFile (fileForCode CACHE_DIR code);
                           HttpGet (HTTP_CAT_URL code)].
Proof.
  intros Hcode Hfile Horigin. rewrite server_on_key by done.
  unfold on_key. rewrite bool_decide_eq_true_2 by done.
  rewrite get_miss_origin_down by done.
  eexists. split; [done|]. cbn. repeat split; [done|].
  by rewrite <- List.app_assoc.
Qed.

Lemma get_miss_origin_down_is_404_witness :
  exists w',
    server "/srv/cache" (Request "GET" ("/" +:+ "404") [])
      origin_down (cache_with_200 [Byte.xff])
    = (Some (send 404 application_json
               (error "not found (cache and http.cat failed)")), w') /\
    files w' = files (cache_with_200 [Byte.xff]) /\
    files w' !! fileForCode "/srv/cache" "404" = None /\
    calls w' = calls (cache_with_200 [Byte.xff])
               ++ [ReadFile (fileForCode "/srv/cache" "404");
                   HttpGet (HTTP_CAT_URL "404")].
Proof.
  apply (get_miss_origin_down_is_404 "/srv/cache" "404" [] origin_down
           (cache_with_200 [Byte.xff]));
    reflexivity.
Defined.


(** C5: after any sequence of PUTs on a valid key, each served under faults
    of its own, if the last PUT was answered 201 then a GET on the key is
    answered 200 with exactly the bytes of that last PUT, from the cache. *)
Theorem put_then_get_last_write_wins
    (CACHE_DIR code : string) (earlier : list (env * Buffer))
    (e_put e_get : env) (data any : Buffer) (w : world) :
  Js.test codeRegex code = true ->
  let after := serve CACHE_DIR (puts code (earlier ++ [(e_put, data)])) w in
  (exists r, last after.1 = Some (Some r) /\ status r = 201) ->
  exists w',
    server CACHE_DIR (Request "GET" ("/" +:+ code) any) e_get after.2
    = (Some (send 200 "image/jpeg" (Bytes data)), w') /\
    files w' = files after.2 /\
    fetches (calls w') = fetches (calls after.2).
Proof.
  intros Hcode after. subst after.
  unfold puts. rewrite fmap_app. cbn [fmap list_fmap fst snd].
  rewrite serve_snoc. destruct (serve CACHE_DIR _ w) as [rs1 w1].
  rewrite server_on_key by done.
  set (p := fileForCode CACHE_DIR code).
  assert (on_key CACHE_DIR "PUT" code data = put code p data) as -> by done.
  destruct (mkdir_ok e_put (Path.dirname p) && writeFile_ok e_put p) eqn:Hok.
  - rewrite put_stores by done. cbn [fst snd]. intros _.
    rewrite server_on_key by done.
    assert (on_key CACHE_DIR "GET" code any = get code p) as -> by done.
    rewrite (get_hit _ _ data) by apply lookup_insert_eq.
    eexists. split; [done|]. cbn. split; [done|].
    unfold fetches. rewrite (omap_app _ _ [ReadFile p]). cbn.
    by rewrite List.app_nil_r.
  - destruct (put_fault code p data e_put w1) as (w1' & -> & _); [done|].
    cbn [fst]. intros (r & Hr & Hst). rewrite last_snoc in Hr.
    injection Hr as <-. discriminate.
Qed.

Lemma put_then_get_last_write_wins_witness :
  exists w',
    server "/srv/cache" (Request "GET" ("/" +:+ "404") []) origin_down
      (serve "/srv/cache"
         (puts "404" ([(origin_down, [Byte.x01]); (disk_full [], [Byte.x02])]
                      ++ [(origin_down, [Byte.xff])]))
         empty_cache).2
    = (Some (send 200 "image/jpeg" (Bytes [Byte.xff])), w') /\
    files w' =
      files (serve "/srv/cache"
               (puts "404" ([(origin_down, [Byte.x01]); (disk_full [], [Byte.x02])]
                            ++ [(origin_down, [Byte.xff])]))
               empty_cache).2 /\
    fetches (calls w') =
      fetches (calls (serve "/srv/cache"
               (puts "404" ([(origin_down, [Byte.x01]); (disk_full [], [Byte.x02])]
                            ++ [(origin_down, [Byte.xff])]))
               empty_cache).2).
Proof.
  apply (put_then_get_last_write_wins "/srv/cache" "404"
           [(origin_down, [Byte.x01]); (disk_full [], [Byte.x02])]
           origin_down origin_down [Byte.xff] [] empty_cache).
  - reflexivity.
  - eexists. split; reflexivity.
Defined.


(** C6: a DELETE on a valid key removes the file and is answered 200 with
    [{ok:true, deleted:"<code>.jpg"}] when the file is in the cache, and is
    answered 404 [{error:"not found"}], the cache unchanged, when it is
    not. *)
Theorem delete_removes_or_404
    (CACHE_DIR code : string) (data : Buffer) (e : env) (w : world) :
  Js.test codeRegex code = true ->
  let p := fileForCode CACHE_DIR code in
  exists w',
    server CACHE_DIR (Request "DELETE" ("/" +:+ code) data) e w
    = (Some match files w !! p with
            | Some _ =>
                send 200 application_json
                  (Json [("ok", JBool true);
                         ("deleted", JStr (code +:+ ".jpg"))])
            | None => send 404 application_json (error "not found")
            end, w') /\
    files w' = delete p (files w) /\
    files w' !! p = None.
Proof.
  intros Hcode p. rewrite server_on_key by done.
  unfold on_key. fold p.
  rewrite (bool_decide_eq_false_2 ("DELETE" = "GET")) by done.
  rewrite (bool_decide_eq_false_2 ("DELETE" = "PUT")) by done.
  rewrite (bool_decide_eq_true_2 ("DELETE" = "DELETE")) by done.
  destruct (files w !! p) as [buf|] eqn:Hfile.
  - rewrite (del_present _ _ buf) by done.
    eexists. split; [done|]. cbn. split; [done|]. apply lookup_delete_eq.
  - rewrite del_absent by done.
    eexists. split; [done|]. cbn. split; [|done].
    symmetry. by apply delete_id.
Qed.

Lemma delete_removes_or_404_witness :
  exists w',
    server "/srv/cache" (Request "DELETE" ("/" +:+ "999") [])
      origin_down (cache_with_200 [Byte.xff])
    = (Some match files (cache_with_200 [Byte.xff])
                  !! fileForCode "/srv/cache" "999" with
            | Some _ =>
                send 200 application_json
                  (Json [("ok", JBool true);
                         ("deleted", JStr ("999" +:+ ".jpg"))])
            | None => send 404 application_json (error "not found")
            end, w') /\
    files w' = delete (fileForCode "/srv/cache" "999")
                 (files (cache_with_200 [Byte.xff])) /\
    files w' !! fileForCode "/srv/cache" "999" = None.
Proof.
  apply (delete_removes_or_404 "/srv/cache" "999" [] origin_down
           (cache_with_200 [Byte.xff])).
  reflexivity.
Defined.


(** C7, as stated, fails on the preflight method: OPTIONS on [/200] is
    answered 204 before any route is tried. *)
Lemma options_on_key_is_204 :
  Js.test routeRegex "/200" = true /\
  "OPTIONS" <> "GET" /\ "OPTIONS" <> "PUT" /\ "OPTIONS" <> "DELETE" /\
  server "/srv/cache" (Request "OPTIONS" "/200" []) origin_down empty_cache
  = (Some (Response 204 cors NoBody), empty_cache).
Proof. by repeat split. Qed.

(** C7, amended: a request on a path [/<3 digits>] whose method is none of
    GET, PUT and DELETE is answered 405 [{error:"method not allowed"}],
    except OPTIONS, which is answered 204 with no body; neither touches the
    cache nor the origin. *)
Theorem other_method_is_405
    (CACHE_DIR : string) (req : request) (e : env) (w : world) :
  Js.test routeRegex (pathname req) = true ->
  method req <> "GET" -> method req <> "PUT" -> method req <> "DELETE" ->
  server CACHE_DIR req e w
  = (Some (if bool_decide (method req = "OPTIONS")
           then Response 204 cors NoBody
           else send 405 application_json (error "method not allowed")), w).
Proof.
  intros Hroute Hget Hput Hdel. destruct req as [m p data]. cbn in *.
  case_bool_decide as Hopt.
  - unfold server. cbn [method]. by rewrite bool_decide_eq_true_2.
  - apply routeRegex_shape in Hroute as (code & -> & Hcode).
    change (String "/" code) with ("/" +:+ code).
    rewrite server_on_key by done. unfold on_key.
    by rewrite !bool_decide_eq_false_2.
Qed.

Lemma other_method_is_405_witness :
  server "/srv/cache" (Request "PATCH" "/200" [Byte.xff]) origin_down
    (cache_with_200 [Byte.x01])
  = (Some (if bool_decide (method (Request "PATCH" "/200" [Byte.xff]) = "OPTIONS")
           then Response 204 cors NoBody
           else send 405 application_json (error "method not allowed")),
     cache_with_200 [Byte.x01]).
Proof.
  apply (other_method_is_405 "/srv/cache" (Request "PATCH" "/200" [Byte.xff])
           origin_down (cache_with_200 [Byte.x01]));
    [reflexivity|discriminate..].
Defined.


(** C9: for a cache root as [path.resolve] returns it and a key matching
    [^\d{3}$], [fileForCode] is exactly [root/<key>.jpg] (with the root
    directory of the file system giving [/<key>.jpg]); the directory of that
    path is the cache root, so the file lies directly inside it; and two
    such keys with the same path are the same key. *)
Theorem fileForCode_inside_and_injective (root : list string) (k k' : string) :
  forallb Path.plain root = true ->
  Js.test codeRegex k = true ->
  Js.test codeRegex k' = true ->
  let CACHE_DIR := Path.absolute root in
  fileForCode CACHE_DIR k
  = (if bool_decide (root = []) then "" else CACHE_DIR) +:+ "/" +:+ k +:+ ".jpg"
  /\ Path.dirname (fileForCode CACHE_DIR k) = CACHE_DIR
  /\ (fileForCode CACHE_DIR k = fileForCode CACHE_DIR k' -> k = k').
Proof.
  intros Hroot Hk Hk' CACHE_DIR. subst CACHE_DIR. unfold fileForCode.
  rewrite !PathFacts.join_child by auto using PathFacts.plain_key.
  split; [|split].
  - unfold Path.absolute. rewrite PathFacts.unsplit_snoc.
    destruct root as [|seg root]; [done|].
    rewrite bool_decide_eq_false_2 by done.
    by rewrite <- PathFacts.app_assoc.
  - apply PathFacts.dirname_child; auto using PathFacts.plain_key.
  - unfold Path.absolute. rewrite !PathFacts.unsplit_snoc.
    intros H%PathFacts.app_inv_head.
    destruct root as [|seg root].
    + by apply PathFacts.key_of_name.
    + apply PathFacts.app_inv_head in H.
      apply (PathFacts.app_inv_head "/") in H.
      by apply PathFacts.key_of_name.
Qed.

Lemma fileForCode_inside_and_injective_witness :
  fileForCode (Path.absolute ["srv"; "cache"]) "200"
  = (if bool_decide (["srv"; "cache"] = []) then ""
     else Path.absolute ["srv"; "cache"]) +:+ "/" +:+ "200" +:+ ".jpg"
  /\ Path.dirname (fileForCode (Path.absolute ["srv"; "cache"]) "200")
     = Path.absolute ["srv"; "cache"]
  /\ (fileForCode (Path.absolute ["srv"; "cache"]) "200"
      = fileForCode (Path.absolute ["srv"; "cache"]) "404" -> "200" = "404").
Proof.
  apply (fileForCode_inside_and_injective ["srv"; "cache"] "200" "404");
    reflexivity.
Defined.


(** C10: whenever the pathname passes the route test [/^\/\d{3}$/], the
    code cut out of it passes [codeRegex]; the request is answered, and the
    answer is not the 400 [{error:"bad code"}] of the guard, whose branch is
    therefore dead. *)
Theorem bad_code_branch_is_dead
    (CACHE_DIR : string) (req : request) (e : env) (w : world) :
  Js.test routeRegex (pathname req) = true ->
  Js.test codeRegex (Js.slice 1 (pathname req)) = true /\
  exists r w',
    server CACHE_DIR req e w = (Some r, w') /\
    status r <> 400 /\
    r <> send 400 application_json (error "bad code").
Proof.
  intros Hroute. split.
  - by apply routeRegex_shape in Hroute as (code & -> & Hcode).
  - destruct (server_answers CACHE_DIR req e w) as (r & w' & Hr & Hst).
    exists r, w'. split; [done|].
    assert (status r <> 400) as Hne.
    { intros H400. rewrite H400 in Hst. unfold key_statuses in Hst.
      repeat (apply elem_of_cons in Hst as [Hst|Hst]; [discriminate|]).
      by apply elem_of_nil in Hst. }
    split; [done|]. by intros ->.
Qed.

Lemma bad_code_branch_is_dead_witness :
  Js.test codeRegex (Js.slice 1 (pathname (Request "PUT" "/418" [Byte.xff])))
  = true /\
  exists r w',
    server "/srv/cache" (Request "PUT" "/418" [Byte.xff]) origin_down
      empty_cache = (Some r, w') /\
    status r <> 400 /\
    r <> send 400 application_json (error "bad code").
Proof.
  apply (bad_code_branch_is_dead "/srv/cache" (Request "PUT" "/418" [Byte.xff])
           origin_down empty_cache).
  reflexivity.
Defined.


(** * Further properties of the handler *)

(** ** Every way a request is answered *)

Ltac io_run :=
  unfold on_key, get, put, del, listCacheFiles, try_catch, await, readFile,
    readdir, superagent_get, mkdir, writeFile, unlink, resolve, record in *;
  cbn [files calls fst snd] in *.

Ltac io_cases :=
  io_run; repeat (case_bool_decide || case_match); simplify_eq/=.

Lemma fetches_app (cs1 cs2 : list call) :
  fetches (cs1 ++ cs2) = fetches cs1 ++ fetches cs2.
Proof. apply omap_app. Qed.

Section Cases.

Variable CACHE_DIR : string.

(** The route a request takes, with its answer when the route has no
    handler of a key behind it. *)
Lemma server_cases (req : request) (e : env) (w : world) :
  (method req = "OPTIONS" /\
   server CACHE_DIR req e w = (Some (Response 204 cors NoBody), w))
  \/ (method req = "GET" /\ pathname req = "/health" /\
      server CACHE_DIR req e w
      = (Some (send 200 "text/plain; charset=utf-8" (Text "OK")), w))
  \/ (method req = "GET" /\ pathname req = "/" /\
      exists names,
        listCacheFiles CACHE_DIR e w
        = (Some names, record (Readdir CACHE_DIR) w) /\
        server CACHE_DIR req e w
        = (Some (send 200 "text/html; charset=utf-8" (IndexPage names)),
           record (Readdir CACHE_DIR) w))
  \/ (method req <> "OPTIONS" /\
      exists code,
        pathname req = "/" +:+ code /\ Js.test codeRegex code = true /\
        server CACHE_DIR req e w
        = on_key CACHE_DIR (method req) code (payload req) e w)
  \/ (method req <> "OPTIONS" /\ method req <> "GET" /\
      Js.test routeRegex (pathname req) = false /\
      server CACHE_DIR req e w
      = (Some (send 404 application_json (error "not found")), w))
  \/ (method req = "GET" /\ pathname req <> "/health" /\ pathname req <> "/" /\
      Js.test routeRegex (pathname req) = false /\
      server CACHE_DIR req e w
      = (Some (send 404 application_json (error "not found")), w)).
Proof.
  destruct req as [m p data]. cbn [method pathname payload].
  destruct (decide (m = "OPTIONS")) as [->|Hopt]; [by left|].
  destruct (Js.test routeRegex p) eqn:Hroute.
  { apply routeRegex_shape in Hroute as (code & -> & Hcode).
    do 3 right. left. split; [done|]. exists code. split; [done|].
    split; [done|]. change (String "/" code) with ("/" +:+ code).
    by rewrite server_on_key. }
  unfold server. cbn [method pathname payload].
  rewrite (bool_decide_eq_false_2 _ Hopt), Hroute.
  destruct (decide (m = "GET")) as [->|Hget].
  - rewrite bool_decide_eq_true_2 by done. cbn [andb].
    case_bool_decide as Hhealth; [by right; left|].
    case_bool_decide as Hindex.
    + do 2 right. left. split; [done|]. split; [done|].
      destruct (listCacheFiles_answers CACHE_DIR e w) as (names & Hnames).
      exists names. split; [done|]. unfold await. by rewrite Hnames.
    + by do 5 right.
  - rewrite (bool_decide_eq_false_2 _ Hget). cbn [andb].
    by do 4 right; left.
Qed.

End Cases.

(** ** The listing of the cache directory *)

Section Listing.

Import Path PathFacts.

Lemma last_split_child (root : list string) (n : string) :
  forallb plain root = true -> plain n = true ->
  List.last (split (absolute (root ++ [n]))) "" = n.
Proof.
  intros Hroot Hn. pose proof (plain_sep_free _ Hn) as Hfree.
  unfold absolute. rewrite unsplit_snoc.
  destruct root as [|seg root].
  - change ("/" +:+ n) with (String "/" n). cbn [split].
    change (is_sep "/") with true. cbn iota. by rewrite split_sep_free.
  - change ("/" +:+ unsplit (seg :: root) +:+ "/" +:+ n)
      with (String "/" (unsplit (seg :: root) +:+ "/" +:+ n)).
    cbn [split]. change (is_sep "/") with true. cbn iota.
    rewrite split_unsplit_snoc by done.
    change ("" :: (seg :: root) ++ [n]) with (("" :: seg :: root) ++ [n]).
    apply last_last.
Qed.

(** The names that pass [.filter(d => d.isFile()).map(d => d.name)]. *)
Lemma names_of_files (names others : list string) :
  Dirent.name <$>
    List.filter Dirent.isFile
      (((fun n => Dirent.Make n true) <$> names)
       ++ ((fun n => Dirent.Make n false) <$> others))
  = names.
Proof.
  rewrite List.filter_app, fmap_app.
  assert (List.filter Dirent.isFile ((fun n => Dirent.Make n false) <$> others)
          = []) as ->.
  { induction others as [|o others IH]; [done|]. by cbn. }
  rewrite List.app_nil_r.
  induction names as [|n names IH]; [done|]. cbn. by f_equal.
Qed.

(** A plain name is among the regular files of the directory exactly when
    the world holds a file of that name in it. *)
Lemma files_in_child (root : list string) (n : string) (w : world) :
  forallb plain root = true -> plain n = true ->
  n ∈ files_in (absolute root) w
  <-> is_Some (files w !! absolute (root ++ [n])).
Proof.
  intros Hroot Hn. unfold files_in.
  rewrite list_elem_of_omap. split.
  - intros (p & Hp & Hpn). apply list_elem_of_In, in_map_iff in Hp.
    destruct Hp as ([p' buf] & <- & Hin). cbn [fst] in *.
    apply list_elem_of_In, elem_of_map_to_list in Hin.
    case_match eqn:Hc; [|done]. injection Hpn as <-.
    apply andb_prop in Hc as [_ Hjoin%bool_decide_eq_true].
    rewrite join_child in Hjoin by done. rewrite Hjoin. eauto.
  - intros [buf Hbuf]. exists (absolute (root ++ [n])). split.
    + apply list_elem_of_In, in_map_iff.
      exists (absolute (root ++ [n]), buf). split; [done|].
      by apply list_elem_of_In, elem_of_map_to_list.
    + rewrite last_split_child by done.
      rewrite (bool_decide_eq_true_2 (n <> "")) by by apply plain_nonempty.
      rewrite bool_decide_eq_true_2 by by apply join_child.
      done.
Qed.

End Listing.

(** X2: with a resolved cache root and a readable directory, the index page
    lists [<code>.jpg] exactly when the key [code] is cached. *)
Theorem index_lists_cached_keys
    (root : list string) (code : string) (data : Buffer) (e : env) (w : world) :
  forallb Path.plain root = true ->
  Js.test codeRegex code = true ->
  readdir_ok e (Path.absolute root) = true ->
  exists names,
    server (Path.absolute root) (Request "GET" "/" data) e w
    = (Some (send 200 "text/html; charset=utf-8" (IndexPage names)),
       record (Readdir (Path.absolute root)) w) /\
    (code +:+ ".jpg" ∈ names <->
     is_Some (files w !! fileForCode (Path.absolute root) code)).
Proof.
  intros Hroot Hcode Hok.
  pose proof (PathFacts.plain_key _ Hcode) as Hname.
  pose proof (files_in_child root (code +:+ ".jpg") w Hroot Hname) as Hin.
  unfold server. cbn [method pathname payload andb].
  rewrite (bool_decide_eq_false_2 ("GET" = "OPTIONS")) by done.
  rewrite (bool_decide_eq_true_2 ("GET" = "GET")) by done.
  rewrite (bool_decide_eq_false_2 ("/" = "/health")) by done.
  rewrite (bool_decide_eq_true_2 ("/" = "/")) by done. cbn [andb].
  unfold listCacheFiles, try_catch, await, resolve, readdir. rewrite Hok.
  eexists. split; [done|].
  unfold fileForCode. rewrite PathFacts.join_child by done.
  rewrite <- Hin, names_of_files. unfold Js.sort.
  by rewrite merge_sort_Permutation.
Qed.

Lemma index_lists_cached_keys_witness :
  exists names,
    server (Path.absolute ["srv"; "cache"]) (Request "GET" "/" []) origin_down
      (cache_with_200 [Byte.xff])
    = (Some (send 200 "text/html; charset=utf-8" (IndexPage names)),
       record (Readdir (Path.absolute ["srv"; "cache"]))
         (cache_with_200 [Byte.xff])) /\
    ("200" +:+ ".jpg" ∈ names <->
     is_Some (files (cache_with_200 [Byte.xff])
                !! fileForCode (Path.absolute ["srv"; "cache"]) "200")).
Proof.
  apply (index_lists_cached_keys ["srv"; "cache"] "200" [] origin_down
           (cache_with_200 [Byte.xff]));
    reflexivity.
Defined.

(** ** What every answer looks like *)

Section Answer.

Variable CACHE_DIR : string.

(** What a fault of the write-back leaves in the record of the calls. *)
Lemma get_miss_write_fault_calls
    (code p : string) (body : Buffer) (e : env) (w : world) :
  files w !! p = None ->
  origin e (HTTP_CAT_URL code) = Some body ->
  mkdir_ok e (Path.dirname p) && writeFile_ok e p = false ->
  exists w',
    get code p e w =
      (Some (send 404 application_json
               (error "not found (cache and http.cat failed)")), w')
    /\ (files w ⊆ files w' /\
        forall q, q <> p -> files w' !! q = files w !! q)
    /\ fetches (calls w') = fetches (calls w) ++ [HTTP_CAT_URL code].
Proof.
  intros Hf Ho Hfault.
  unfold get, try_catch, await, readFile, superagent_get, mkdir, writeFile,
    resolve, record.
  rewrite Hf, Ho. cbn [files calls].
  destruct (mkdir_ok e (Path.dirname p)); cbn in Hfault.
  - rewrite Hfault. eexists. split; [done|]. cbn [files calls]. split.
    + split; [|by intros q Hq; apply fault_elsewhere].
      destruct (written_before_fault e p); [|done]. by apply insert_subseteq.
    + rewrite !fetches_app. cbn. by rewrite !List.app_nil_r.
  - eexists. split; [done|]. split; [done|].
    cbn [calls]. rewrite !fetches_app. cbn. by rewrite !List.app_nil_r.
Qed.

Lemma put_fault_calls (code p : string) (data : Buffer) (e : env) (w : world) :
  mkdir_ok e (Path.dirname p) && writeFile_ok e p = false ->
  exists w',
    put code p data e w =
      (Some (send 500 application_json (error "write failed")), w')
    /\ (forall q, q <> p -> files w' !! q = files w !! q)
    /\ fetches (calls w') = fetches (calls w).
Proof.
  intros Hfault.
  unfold put, try_catch, await, mkdir, writeFile, resolve, record.
  destruct (mkdir_ok e (Path.dirname p)); cbn in Hfault.
  - rewrite Hfault. eexists. split; [done|]. cbn [files calls].
    split; [by intros q Hq; apply fault_elsewhere|].
    rewrite !fetches_app. cbn. by rewrite !List.app_nil_r.
  - eexists. split; [done|]. split; [done|].
    cbn [calls]. rewrite !fetches_app. cbn. by rewrite !List.app_nil_r.
Qed.

(** The answers of the handlers of the keys, with what they leave behind. *)
Lemma on_key_cases (m code : string) (data : Buffer) (e : env) (w : world) :
  let p := fileForCode CACHE_DIR code in
  let url := HTTP_CAT_URL code in
  exists r w',
    on_key CACHE_DIR m code data e w = (Some r, w') /\
    ((m = "GET" /\ exists buf,
        files w !! p = Some buf /\ r = send 200 "image/jpeg" (Bytes buf) /\
        w' = record (ReadFile p) w)
     \/ (m = "GET" /\ files w !! p = None /\ exists body,
           origin e url = Some body /\
           mkdir_ok e (Path.dirname p) && writeFile_ok e p = true /\
           r = send 200 "image/jpeg" (Bytes body) /\
           files w' = <[p := body]> (files w) /\
           fetches (calls w') = fetches (calls w) ++ [url])
     \/ (m = "GET" /\ files w !! p = None /\
         (origin e url = None \/
          mkdir_ok e (Path.dirname p) && writeFile_ok e p = false) /\
         r = send 404 application_json
               (error "not found (cache and http.cat failed)") /\
         (files w ⊆ files w' /\
          forall q, q <> p -> files w' !! q = files w !! q) /\
         fetches (calls w') = fetches (calls w) ++ [url])
     \/ (m = "PUT" /\
         mkdir_ok e (Path.dirname p) && writeFile_ok e p = true /\
         r = send 201 application_json
               (Json [("ok", JBool true);
                      ("saved", JStr (code +:+ ".jpg"));
                      ("bytes", JNum (Z.of_nat (List.length data)))]) /\
         files w' = <[p := data]> (files w) /\
         fetches (calls w') = fetches (calls w))
     \/ (m = "PUT" /\
         mkdir_ok e (Path.dirname p) && writeFile_ok e p = false /\
         r = send 500 application_json (error "write failed") /\
         (forall q, q <> p -> files w' !! q = files w !! q) /\
         fetches (calls w') = fetches (calls w))
     \/ (m = "DELETE" /\ is_Some (files w !! p) /\
         r = send 200 application_json
               (Json [("ok", JBool true);
                      ("deleted", JStr (code +:+ ".jpg"))]) /\
         files w' = delete p (files w) /\
         fetches (calls w') = fetches (calls w))
     \/ (m = "DELETE" /\ files w !! p = None /\
         r = send 404 application_json (error "not found") /\
         files w' = files w /\ fetches (calls w') = fetches (calls w))
     \/ (m <> "GET" /\ m <> "PUT" /\ m <> "DELETE" /\
         r = send 405 application_json (error "method not allowed") /\
         w' = w)).
Proof.
  intros p url.
  destruct (decide (m = "GET")) as [->|Hget].
  { assert (on_key CACHE_DIR "GET" code data = get code p) as -> by done.
    destruct (files w !! p) as [buf|] eqn:Hfile.
    { rewrite (get_hit _ _ buf) by done. do 2 eexists. split; [done|].
      left. eauto. }
    destruct (origin e url) as [body|] eqn:Horigin.
    - destruct (mkdir_ok e (Path.dirname p) && writeFile_ok e p) eqn:Hok.
      + destruct (andb_prop _ _ Hok) as [Hmk Hwr].
        rewrite (get_miss_populates _ _ body) by done.
        do 2 eexists. split; [done|]. right. left.
        cbn [files calls]. rewrite fetches_app.
        cbn. rewrite ?List.app_nil_r. eauto 10.
      + destruct (get_miss_write_fault_calls code p body e w)
          as (w' & Hrun & Hfiles & Hcalls); [done..|].
        rewrite Hrun. do 2 eexists. split; [done|]. do 2 right. left. eauto 10.
    - rewrite get_miss_origin_down by done.
      do 2 eexists. split; [done|]. do 2 right. left.
      cbn [files calls record]. rewrite !fetches_app. cbn.
      rewrite ?List.app_nil_r. eauto 10. }
  destruct (decide (m = "PUT")) as [->|Hput].
  { assert (on_key CACHE_DIR "PUT" code data = put code p data) as -> by done.
    destruct (mkdir_ok e (Path.dirname p) && writeFile_ok e p) eqn:Hok.
    - rewrite put_stores by done. do 2 eexists. split; [done|].
      do 3 right. left. cbn [files calls]. rewrite fetches_app. cbn.
      rewrite ?List.app_nil_r. eauto 10.
    - destruct (put_fault_calls code p data e w)
        as (w' & Hrun & Hfiles & Hcalls); [done|].
      rewrite Hrun. do 2 eexists. split; [done|]. do 4 right. left. eauto 10. }
  destruct (decide (m = "DELETE")) as [->|Hdel].
  { assert (on_key CACHE_DIR "DELETE" code data = del code p) as -> by done.
    destruct (files w !! p) as [buf|] eqn:Hfile.
    - rewrite (del_present _ _ buf) by done. do 2 eexists. split; [done|].
      do 5 right. left. cbn [files calls]. rewrite fetches_app. cbn.
      rewrite ?List.app_nil_r. eauto 10.
    - rewrite del_absent by done. do 2 eexists. split; [done|].
      do 6 right. left. cbn [files calls record]. rewrite fetches_app. cbn.
      rewrite ?List.app_nil_r. eauto 10. }
  unfold on_key. rewrite !bool_decide_eq_false_2 by done.
  do 2 eexists. split; [done|]. do 7 right. eauto 10.
Qed.

End Answer.

(** Splits a goal about [server] along the routes and, behind the route of
    a key, along the answers of its handlers. *)
Ltac by_route CACHE_DIR req e w :=
  let Hrun := fresh "Hrun" in
  destruct (server_cases CACHE_DIR req e w)
    as [(? & Hrun)|[(? & ? & Hrun)|[(? & ? & ? & ? & Hrun)
       |[(? & key & ? & ? & Hrun)|[(? & ? & ? & Hrun)|(? & ? & ? & ? & Hrun)]]]]];
  rewrite Hrun; clear Hrun.

Ltac by_key CACHE_DIR m code data e w :=
  let Hrun := fresh "Hrun" in
  destruct (on_key_cases CACHE_DIR m code data e w)
    as (? & ? & Hrun &
        [(? & ? & ? & ? & ?)|[(? & ? & ? & ? & ? & ? & ? & ?)
        |[(? & ? & ? & ? & ? & ?)|[(? & ? & ? & ? & ?)|[(? & ? & ? & ? & ?)
        |[(? & ? & ? & ? & ?)|[(? & ? & ? & ? & ?)|(? & ? & ? & ? & ?)]]]]]]]);
  rewrite Hrun; clear Hrun; simplify_eq.

(** Past the decoding, every answer carries the three CORS headers. *)
Lemma server_answers_with_cors
    (CACHE_DIR : string) (req : request) (e : env) (w : world) :
  exists r w',
    server CACHE_DIR req e w = (Some r, w') /\
    ((status r = 204 /\ headers r = cors /\ content r = NoBody)
     \/ (status r <> 204 /\
         exists ty, headers r = cors ++ [("Content-Type", ty)])).
Proof.
  by_route CACHE_DIR req e w;
    try (do 2 eexists; split; [done|]; (by left) || (right; by eauto)).
  by_key CACHE_DIR (method req) key (payload req) e w;
    do 2 eexists; (split; [done|]); right; by eauto.
Qed.

(** X3: a request is answered exactly when its URL parses and its pathname
    decodes: on a malformed escape the callback rejects with nothing sent
    and nothing called.  Every answer carries the three CORS headers first: alone on
    the 204 of OPTIONS, which has no body, and followed by exactly one
    Content-Type on every other answer. *)
Theorem answers_carry_cors
    (CACHE_DIR : string) (req : incoming) (e : env) (w : world) :
  match decoded_pathname (in_url req) with
  | None => requestListener CACHE_DIR req e w = (None, w)
  | Some _ =>
      exists r w',
        requestListener CACHE_DIR req e w = (Some r, w') /\
        ((status r = 204 /\ headers r = cors /\ content r = NoBody)
         \/ (status r <> 204 /\
             exists ty, headers r = cors ++ [("Content-Type", ty)]))
  end.
Proof.
  unfold requestListener.
  destruct (decoded_pathname (in_url req)) as [pathname|]; [|done].
  apply server_answers_with_cors.
Qed.

(** X4: an answer with a status of 400 or more is a JSON object with the
    single field [error], sent as [application/json]; no other answer has
    such a body. *)
Theorem error_answers_are_json
    (CACHE_DIR : string) (req : request) (e : env) (w : world) :
  exists r w',
    server CACHE_DIR req e w = (Some r, w') /\
    (400 <= status r <-> exists msg, content r = error msg) /\
    (400 <= status r ->
     exists msg, r = send (status r) application_json (error msg)).
Proof.
  by_route CACHE_DIR req e w;
    try (do 2 eexists; split; [done|]; cbn; split; [split|]; 
         first [by eauto | lia | by intros [? ?] | by intros ?; lia ]).
  by_key CACHE_DIR (method req) key (payload req) e w;
    do 2 eexists; (split; [done|]); cbn; (split; [split|]);
    first [by eauto | lia | by intros [? ?] | by intros ?; lia ].
Qed.

(** X5: the statuses each method can be answered with: OPTIONS only 204,
    GET and DELETE only 200 or 404, PUT only 201, 404 or 500, and any other
    method only 404 or 405. *)
Theorem statuses_by_method
    (CACHE_DIR : string) (req : request) (e : env) (w : world) :
  exists r w',
    server CACHE_DIR req e w = (Some r, w') /\
    status r ∈
      (if bool_decide (method req = "OPTIONS") then [204]
       else if bool_decide (method req = "GET") then [200; 404]
       else if bool_decide (method req = "PUT") then [201; 404; 500]
       else if bool_decide (method req = "DELETE") then [200; 404]
       else [404; 405]).
Proof.
  destruct req as [m p data]. cbn [method].
  by_route CACHE_DIR (Request m p data) e w; cbn [method payload] in *;
    try (do 2 eexists; split; [done|]; subst;
         repeat (case_bool_decide; try done); cbn [status send];
         repeat first [apply list_elem_of_here | apply list_elem_of_further]).
  by_key CACHE_DIR m key data e w;
    do 2 eexists; (split; [done|]);
    repeat (case_bool_decide; try done); cbn [status send];
    repeat first [apply list_elem_of_here | apply list_elem_of_further].
Qed.

(** X6: a request makes at most one request to the origin, and makes one
    only when it is a GET on the route of a key whose file is not in the
    cache; the URL is then the one of that key.  There is no retry. *)
Theorem at_most_one_fetch
    (CACHE_DIR : string) (req : request) (e : env) (w : world) :
  exists r w',
    server CACHE_DIR req e w = (Some r, w') /\
    (fetches (calls w') = fetches (calls w)
     \/ (method req = "GET" /\
         exists code,
           pathname req = "/" +:+ code /\
           Js.test codeRegex code = true /\
           files w !! fileForCode CACHE_DIR code = None /\
           fetches (calls w') = fetches (calls w) ++ [HTTP_CAT_URL code])).
Proof.
  destruct req as [m p data]. cbn [method pathname].
  by_route CACHE_DIR (Request m p data) e w; cbn [method pathname payload] in *;
    try (do 2 eexists; split; [done|]; left;
         cbn [record calls]; rewrite ?fetches_app; cbn;
         by rewrite ?List.app_nil_r).
  by_key CACHE_DIR m key data e w;
    do 2 eexists; (split; [done|]);
    first [ by left; cbn [record calls]; rewrite ?fetches_app; cbn;
            rewrite ?List.app_nil_r
          | by right; eauto 10 ].
Qed.

(** X7: what a method can do to the files of the cache.  A GET only adds:
    every file is kept with its content.  A DELETE only removes: no file is
    added or changed.  A method other than GET, PUT and DELETE does nothing
    at all, not even a call. *)
Theorem effects_by_method
    (CACHE_DIR : string) (req : request) (e : env) (w : world) :
  exists r w',
    server CACHE_DIR req e w = (Some r, w') /\
    (method req = "GET" -> files w ⊆ files w') /\
    (method req = "DELETE" -> files w' ⊆ files w) /\
    (method req <> "GET" -> method req <> "PUT" -> method req <> "DELETE" ->
     w' = w).
Proof.
  destruct req as [m p data]. cbn [method pathname].
  by_route CACHE_DIR (Request m p data) e w; cbn [method pathname payload] in *;
    try (do 2 eexists; split; [done|]; by repeat split).
  by_key CACHE_DIR m key data e w;
    do 2 eexists; (split; [done|]);
    repeat match goal with H : files _ = _ |- _ => rewrite H; clear H end;
    cbn [record files]; (split; [|split]); try done; intros _;
    try (by match goal with H : _ ⊆ _ /\ _ |- _ => apply H end).
  - by apply insert_subseteq.
  - apply delete_subseteq.
Qed.

(** ** How requests compose *)

(** X8: read-through population.  A GET on a valid key that is not cached,
    while the origin answers [body] and the write-back goes through, is
    answered 200 with [body] and stores it; the next GET on the key is then
    answered 200 with the same bytes whatever the origin and the file system
    do, and the origin was asked once in all. *)
Theorem read_through_then_hit
    (CACHE_DIR code : string) (body d1 d2 : Buffer) (e1 e2 : env) (w : world) :
  let p := fileForCode CACHE_DIR code in
  let read d := Request "GET" ("/" +:+ code) d in
  Js.test codeRegex code = true ->
  files w !! p = None ->
  origin e1 (HTTP_CAT_URL code) = Some body ->
  mkdir_ok e1 (Path.dirname p) = true ->
  writeFile_ok e1 p = true ->
  exists w',
    serve CACHE_DIR [(e1, read d1); (e2, read d2)] w
    = ([Some (send 200 "image/jpeg" (Bytes body));
        Some (send 200 "image/jpeg" (Bytes body))], w') /\
    files w' = <[p := body]> (files w) /\
    fetches (calls w') = fetches (calls w) ++ [HTTP_CAT_URL code].
Proof.
  intros p read Hcode Hmiss Horigin Hmk Hwr. subst read. cbn [serve].
  rewrite !server_on_key by done.
  assert (forall d, on_key CACHE_DIR "GET" code d = get code p) as Hget
    by done.
  rewrite !Hget. rewrite (get_miss_populates _ _ body) by done.
  rewrite (get_hit _ _ body) by apply lookup_insert_eq.
  eexists. split; [done|]. cbn [record files calls]. split; [done|].
  rewrite !fetches_app. cbn. by rewrite !List.app_nil_r.
Qed.

Lemma read_through_then_hit_witness :
  exists w',
    serve "/srv/cache"
      [(origin_serves [Byte.x01; Byte.x02; Byte.x03],
        Request "GET" ("/" +:+ "200") []);
       (disk_full [], Request "GET" ("/" +:+ "200") [])] empty_cache
    = ([Some (send 200 "image/jpeg" (Bytes [Byte.x01; Byte.x02; Byte.x03]));
        Some (send 200 "image/jpeg" (Bytes [Byte.x01; Byte.x02; Byte.x03]))],
       w') /\
    files w' = <[fileForCode "/srv/cache" "200" := [Byte.x01; Byte.x02; Byte.x03]]>
                 (files empty_cache) /\
    fetches (calls w') = fetches (calls empty_cache) ++ [HTTP_CAT_URL "200"].
Proof.
  apply (read_through_then_hit "/srv/cache" "200"
           [Byte.x01; Byte.x02; Byte.x03] [] []
           (origin_serves [Byte.x01; Byte.x02; Byte.x03]) (disk_full [])
           empty_cache);
    reflexivity.
Defined.

Section Isolation.

Import Path PathFacts.

(** Two valid keys with the same file under a resolved root are equal. *)
Lemma fileForCode_inj (root : list string) (k k' : string) :
  forallb plain root = true ->
  Js.test codeRegex k = true -> Js.test codeRegex k' = true ->
  fileForCode (absolute root) k = fileForCode (absolute root) k' -> k = k'.
Proof.
  intros Hroot Hk Hk'. unfold fileForCode.
  rewrite !join_child by auto using plain_key.
  unfold absolute. rewrite !unsplit_snoc. intros H%app_inv_head.
  destruct root as [|seg root].
  - by apply key_of_name.
  - apply app_inv_head in H. apply (app_inv_head "/") in H.
    by apply key_of_name.
Qed.

End Isolation.

(** X9: keys are isolated.  Under a resolved cache root, a request of any
    method on the route of a valid key leaves the file of every other valid
    key as it was, present with the same bytes or absent. *)
Theorem keys_are_isolated
    (root : list string) (m k k' : string) (data : Buffer) (e : env) (w : world) :
  forallb Path.plain root = true ->
  Js.test codeRegex k = true ->
  Js.test codeRegex k' = true ->
  k <> k' ->
  exists r w',
    server (Path.absolute root) (Request m ("/" +:+ k) data) e w = (Some r, w')
    /\ files w' !! fileForCode (Path.absolute root) k'
       = files w !! fileForCode (Path.absolute root) k'.
Proof.
  intros Hroot Hk Hk' Hne.
  assert (fileForCode (Path.absolute root) k
          <> fileForCode (Path.absolute root) k') as Hpath.
  { intros Heq. by apply Hne, (fileForCode_inj root). }
  destruct (decide (m = "OPTIONS")) as [->|Hopt]; [by do 2 eexists|].
  rewrite server_on_key by done.
  by_key (Path.absolute root) m k data e w;
    do 2 eexists; (split; [done|]);
    repeat match goal with H : files _ = _ |- _ => rewrite H; clear H end;
    cbn [record files]; try done;
    try (by match goal with
            | H : _ /\ (forall q, _ -> _ = _) |- _ => apply H
            | H : forall q, _ -> _ = _ |- _ => apply H
            end).
  - by apply lookup_insert_ne.
  - by apply lookup_insert_ne.
  - by apply lookup_delete_ne.
Qed.

Lemma keys_are_isolated_witness :
  exists r w',
    server (Path.absolute ["srv"; "cache"])
      (Request "PUT" ("/" +:+ "404") [Byte.x01]) origin_down
      (cache_with_200 [Byte.xff])
    = (Some r, w')
    /\ files w' !! fileForCode (Path.absolute ["srv"; "cache"]) "200"
       = files (cache_with_200 [Byte.xff])
           !! fileForCode (Path.absolute ["srv"; "cache"]) "200".
Proof.
  apply (keys_are_isolated ["srv"; "cache"] "PUT" "404" "200" [Byte.x01]
           origin_down (cache_with_200 [Byte.xff]));
    [reflexivity..|discriminate].
Defined.

(** X10: after a DELETE on a valid key, whatever its answer, a GET on the
    key asks the origin once, and the origin decides: 404 when the fetch
    fails, 200 with the fetched bytes, which are then cached, when it
    succeeds and the write-back goes through. *)
Theorem delete_then_get_asks_origin
    (CACHE_DIR code : string) (d1 d2 : Buffer) (e1 e2 : env) (w : world) :
  let p := fileForCode CACHE_DIR code in
  let w1 := (server CACHE_DIR (Request "DELETE" ("/" +:+ code) d1) e1 w).2 in
  Js.test codeRegex code = true ->
  exists r w2,
    server CACHE_DIR (Request "GET" ("/" +:+ code) d2) e2 w1 = (Some r, w2) /\
    fetches (calls w2) = fetches (calls w) ++ [HTTP_CAT_URL code] /\
    match origin e2 (HTTP_CAT_URL code) with
    | None =>
        r = send 404 application_json
              (error "not found (cache and http.cat failed)")
    | Some body =>
        mkdir_ok e2 (Path.dirname p) && writeFile_ok e2 p = true ->
        r = send 200 "image/jpeg" (Bytes body) /\ files w2 !! p = Some body
    end.
Proof.
  intros p w1 Hcode. subst w1. rewrite !server_on_key by done.
  destruct (on_key_cases CACHE_DIR "DELETE" code d1 e1 w)
    as (r1 & w1 & -> & Hdel). cbn [snd].
  assert (files w1 !! p = None /\ fetches (calls w1) = fetches (calls w))
    as [Hgone Hcalls].
  { destruct Hdel as [(? & _)|[(? & _)|[(? & _)|[(? & _)|[(? & _)
      |[(_ & _ & _ & Hf & Hc)|[(_ & Hnone & _ & Hf & Hc)|(Hx & _ & Hy & _)]]]]]]];
      try done.
    - rewrite Hf. split; [apply lookup_delete_eq|done].
    - rewrite Hf. by split. }
  destruct (on_key_cases CACHE_DIR "GET" code d2 e2 w1)
    as (r & w2 & -> & Hget). fold p in Hget.
  exists r, w2. split; [done|]. rewrite <- Hcalls.
  destruct Hget as [(_ & buf & Hbuf & _)|[(_ & _ & body & Ho & Hok & -> & Hf & Hc)
    |[(_ & _ & Hwhy & -> & Hf & Hc)|[(? & _)|[(? & _)|[(? & _)|[(? & _)
    |(? & _)]]]]]]]; try done.
  - congruence.
  - split; [done|]. rewrite Ho. intros _. split; [done|].
    rewrite Hf. apply lookup_insert_eq.
  - split; [done|]. destruct (origin e2 (HTTP_CAT_URL code)); [|done].
    intros Hok. destruct Hwhy; congruence.
Qed.

Lemma delete_then_get_asks_origin_witness :
  exists r w2,
    server "/srv/cache" (Request "GET" ("/" +:+ "200") []) (origin_serves [Byte.x01])
      (server "/srv/cache" (Request "DELETE" ("/" +:+ "200") []) origin_down
         (cache_with_200 [Byte.xff])).2
    = (Some r, w2) /\
    fetches (calls w2)
    = fetches (calls (cache_with_200 [Byte.xff])) ++ [HTTP_CAT_URL "200"] /\
    match origin (origin_serves [Byte.x01]) (HTTP_CAT_URL "200") with
    | None =>
        r = send 404 application_json
              (error "not found (cache and http.cat failed)")
    | Some body =>
        mkdir_ok (origin_serves [Byte.x01])
          (Path.dirname (fileForCode "/srv/cache" "200"))
        && writeFile_ok (origin_serves [Byte.x01]) (fileForCode "/srv/cache" "200")
        = true ->
        r = send 200 "image/jpeg" (Bytes body) /\
        files w2 !! fileForCode "/srv/cache" "200" = Some body
    end.
Proof.
  apply (delete_then_get_asks_origin "/srv/cache" "200" [] [] origin_down
           (origin_serves [Byte.x01]) (cache_with_200 [Byte.xff])).
  reflexivity.
Defined.

(** X11: DELETE is not repeatable.  Whatever the first DELETE on a valid
    key answers, a second one right after it is answered 404
    [{error:"not found"}] and finds nothing to remove. *)
Theorem second_delete_is_404
    (CACHE_DIR code : string) (d1 d2 : Buffer) (e1 e2 : env) (w : world) :
  let w1 := (server CACHE_DIR (Request "DELETE" ("/" +:+ code) d1) e1 w).2 in
  Js.test codeRegex code = true ->
  exists w2,
    server CACHE_DIR (Request "DELETE" ("/" +:+ code) d2) e2 w1
    = (Some (send 404 application_json (error "not found")), w2) /\
    files w2 = files w1.
Proof.
  intros w1 Hcode. subst w1. rewrite !server_on_key by done.
  assert (forall d, on_key CACHE_DIR "DELETE" code d
                    = del code (fileForCode CACHE_DIR code)) as Hdel by done.
  rewrite !Hdel. set (p := fileForCode CACHE_DIR code).
  destruct (files w !! p) as [buf|] eqn:Hfile.
  - rewrite (del_present code p buf e1 w) by done. cbn [snd].
    rewrite del_absent by (cbn; apply lookup_delete_eq). by eexists.
  - rewrite (del_absent code p e1 w) by done. cbn [snd].
    rewrite del_absent by done. by eexists.
Qed.

Lemma second_delete_is_404_witness :
  exists w2,
    server "/srv/cache" (Request "DELETE" ("/" +:+ "200") []) origin_down
      (server "/srv/cache" (Request "DELETE" ("/" +:+ "200") []) origin_down
         (cache_with_200 [Byte.xff])).2
    = (Some (send 404 application_json (error "not found")), w2) /\
    files w2
    = files (server "/srv/cache" (Request "DELETE" ("/" +:+ "200") [])
               origin_down (cache_with_200 [Byte.xff])).2.
Proof.
  apply (second_delete_is_404 "/srv/cache" "200" [] [] origin_down origin_down
           (cache_with_200 [Byte.xff])).
  reflexivity.
Defined.

(** ** The origin *)

Lemma length_app (s t : string) :
  String.length (s +:+ t) = (String.length s + String.length t)%nat.
Proof.
  induction s as [|c s IH]; [done|].
  rewrite PathFacts.app_cons. cbn. by rewrite IH.
Qed.

Lemma app_inv_tail (s t u : string) : s +:+ u = t +:+ u -> s = t.
Proof.
  revert t. induction s as [|c s IH]; intros [|d t] H; [done|..].
  - apply (f_equal String.length) in H.
    rewrite !length_app in H. cbn in H. lia.
  - apply (f_equal String.length) in H.
    rewrite !length_app in H. cbn in H. lia.
  - rewrite !PathFacts.app_cons in H. injection H as -> H.
    f_equal. by apply IH.
Qed.

(** X12: [HTTP_CAT_URL] is injective: two codes with the same origin URL
    are the same code, so no two keys are fetched from one URL. *)
Theorem HTTP_CAT_URL_injective (code code' : string) :
  HTTP_CAT_URL code = HTTP_CAT_URL code' -> code = code'.
Proof.
  unfold HTTP_CAT_URL. intros H%PathFacts.app_inv_head.
  by apply app_inv_tail in H.
Qed.

Lemma HTTP_CAT_URL_injective_witness : "418" = "418".
Proof. apply (HTTP_CAT_URL_injective "418" "418"). reflexivity. Defined.

(** ** The earlier versions *)

(** X13: version 1.1.0 against the last version.  Off the index page, whose
    markup differs, the two handlers give the same answer and leave the same
    world on every request, except a GET on the route of a key whose file is
    not in the cache: there 1.1.0 answers 404 [{error:"not found"}] after
    the failed read and nothing else, where the last version goes to the
    origin. *)
Theorem v1_1_differs_only_on_a_miss
    (CACHE_DIR : string) (req : request) (e : env) (w : world) :
  pathname req <> "/" ->
  V1_1.server CACHE_DIR req e w = server CACHE_DIR req e w
  \/ (method req = "GET" /\
      exists code,
        pathname req = "/" +:+ code /\
        Js.test codeRegex code = true /\
        files w !! fileForCode CACHE_DIR code = None /\
        V1_1.server CACHE_DIR req e w
        = (Some (send 404 application_json (error "not found")),
           record (ReadFile (fileForCode CACHE_DIR code)) w)).
Proof.
  destruct req as [m p data]. unfold V1_1.server, server.
  cbn [method pathname payload]. intros _.
  case_bool_decide as Hopt; [by left|].
  destruct (bool_decide (m = "GET") && bool_decide (p = "/health"));
    [by left|].
  destruct (bool_decide (m = "GET") && bool_decide (p = "/")); [by left|].
  destruct (Js.test routeRegex p) eqn:Hroute; [|by left].
  apply routeRegex_shape in Hroute as (code & -> & Hcode).
  rewrite slice_route, Hcode. cbn [negb].
  case_bool_decide as Hget; [|by left]. subst m.
  set (path := fileForCode CACHE_DIR code).
  destruct (files w !! path) as [buf|] eqn:Hfile.
  - left. rewrite (get_hit _ _ buf) by done.
    unfold V1_1.get, try_catch, await, readFile, resolve. by rewrite Hfile.
  - right. split; [done|]. exists code. repeat split; [done..|].
    unfold V1_1.get, try_catch, await, readFile, resolve. by rewrite Hfile.
Qed.

Lemma v1_1_differs_only_on_a_miss_witness :
  V1_1.server "/srv/cache" (Request "GET" "/200" []) (origin_serves [Byte.x01])
    empty_cache
  = server "/srv/cache" (Request "GET" "/200" []) (origin_serves [Byte.x01])
      empty_cache
  \/ (method (Request "GET" "/200" []) = "GET" /\
      exists code,
        pathname (Request "GET" "/200" []) = "/" +:+ code /\
        Js.test codeRegex code = true /\
        files empty_cache !! fileForCode "/srv/cache" code = None /\
        V1_1.server "/srv/cache" (Request "GET" "/200" [])
          (origin_serves [Byte.x01]) empty_cache
        = (Some (send 404 application_json (error "not found")),
           record (ReadFile (fileForCode "/srv/cache" code)) empty_cache)).
Proof.
  apply (v1_1_differs_only_on_a_miss "/srv/cache" (Request "GET" "/200" [])
           (origin_serves [Byte.x01]) empty_cache).
  discriminate.
Defined.

(** ** Version 1.0.0: names that pass [sanitizeName] *)

Section Sanitized.

Import Path PathFacts.

Lemma app_empty_r (s : string) : s +:+ "" = s.
Proof. induction s as [|c s IH]; [done|]. by rewrite app_cons, IH. Qed.

Lemma startsWith_split_head (s seg : string) (segs : list string) :
  split s = seg :: segs -> Js.startsWith s seg = true.
Proof.
  revert seg segs. induction s as [|c s IH]; intros seg segs; cbn [split].
  - by intros [= <- <-].
  - destruct (is_sep c); [by intros [= <- <-]|].
    destruct (split s) as [|seg' segs'] eqn:Hs; intros [= <- <-]; cbn.
    + rewrite bool_decide_eq_true_2 by done. by destruct s.
    + rewrite bool_decide_eq_true_2 by done. by apply (IH seg' segs').
Qed.

(** A name that does not include [..] has no [..] segment. *)
Lemma includes_dotdot_segments (name : string) :
  Js.includes name ".." = false ->
  forallb (fun seg => negb (bool_decide (seg = ".."))) (split name) = true.
Proof.
  induction name as [|c name IH]; [done|].
  cbn [Js.includes]. intros [Hhere Hlater]%orb_false_elim.
  specialize (IH Hlater). cbn [split]. destruct (is_sep c); [done|].
  destruct (split name) as [|seg segs] eqn:Hs; cbn [forallb].
  - by rewrite bool_decide_eq_false_2.
  - cbn [forallb] in IH. apply andb_prop in IH as [_ ->].
    rewrite andb_true_r. apply negb_true_iff, bool_decide_eq_false.
    intros [= -> ->]. apply startsWith_split_head in Hs.
    cbn in Hhere. rewrite bool_decide_eq_true_2 in Hhere by done.
    destruct name as [|d name]; [done|]. cbn in Hs, Hhere. congruence.
Qed.

Lemma split_sep_free_segments (s : string) :
  forallb sep_free (split s) = true.
Proof.
  induction s as [|c s IH]; [done|]. cbn [split].
  destruct (is_sep c) eqn:Hc; [done|].
  destruct (split s) as [|seg segs]; cbn in *; by rewrite Hc.
Qed.

(** Without a [..] segment, [normalizeString] only drops the empty and the
    [.] segments. *)
Lemma normalizeString_no_dotdot (allow : bool) (res segs : list string) :
  forallb (fun seg => negb (bool_decide (seg = ".."))) segs = true ->
  normalizeString allow res segs =
  rev res ++
  List.filter
    (fun seg => negb (bool_decide (seg = "") || bool_decide (seg = "."))) segs.
Proof.
  revert res. induction segs as [|seg segs IH]; intros res Hsegs.
  - cbn. by rewrite List.app_nil_r.
  - cbn in Hsegs. apply andb_prop in Hsegs as [Hseg Hsegs].
    apply negb_true_iff in Hseg. cbn [normalizeString List.filter].
    destruct (bool_decide (seg = "") || bool_decide (seg = ".")); cbn [negb].
    + by apply IH.
    + rewrite Hseg, IH by done. cbn. by rewrite <- List.app_assoc.
Qed.

Lemma split_unsplit_app (segs : list string) (t : string) :
  forallb plain segs = true ->
  split (unsplit segs +:+ "/" +:+ t) =
  match segs with
  | [] => [""]
  | _ => segs
  end ++ split t.
Proof.
  intros Hsegs. induction segs as [|seg segs IH].
  - change (unsplit [] +:+ "/" +:+ t) with (String "/" t). by cbn.
  - cbn in Hsegs. apply andb_prop in Hsegs as [Hseg Hsegs].
    specialize (IH Hsegs). destruct segs as [|seg' segs].
    + cbn [unsplit app]. by rewrite split_app_sep by by apply plain_sep_free.
    + change (unsplit (seg :: seg' :: segs))
        with (seg +:+ "/" +:+ unsplit (seg' :: segs)).
      rewrite !app_assoc. rewrite split_app_sep by by apply plain_sep_free.
      by rewrite IH.
Qed.

Lemma split_unsplit (segs : list string) :
  forallb plain segs = true -> segs <> [] -> split (unsplit segs) = segs.
Proof.
  intros Hsegs Hne. induction segs as [|seg segs IH]; [done|].
  cbn in Hsegs. apply andb_prop in Hsegs as [Hseg Hsegs].
  destruct segs as [|seg' segs].
  - by apply split_sep_free, plain_sep_free.
  - change (unsplit (seg :: seg' :: segs))
      with (seg +:+ "/" +:+ unsplit (seg' :: segs)).
    rewrite split_app_sep by by apply plain_sep_free.
    by rewrite IH.
Qed.

Lemma ends_with_sep_unsplit (segs : list string) :
  forallb plain segs = true -> ends_with_sep (unsplit segs) = false.
Proof.
  intros Hsegs. induction segs as [|seg segs IH]; [done|].
  cbn in Hsegs. apply andb_prop in Hsegs as [Hseg Hsegs].
  destruct segs as [|seg' segs].
  - by apply ends_with_sep_free, plain_sep_free.
  - change (unsplit (seg :: seg' :: segs))
      with (seg +:+ "/" +:+ unsplit (seg' :: segs)).
    rewrite <- app_assoc. rewrite ends_with_sep_app; [by apply IH|].
    cbn in Hsegs. apply andb_prop in Hsegs as [Hseg' _].
    apply unsplit_nonempty. by apply plain_nonempty.
Qed.

Lemma filter_kept_plain (segs : list string) :
  forallb plain segs = true ->
  List.filter
    (fun seg => negb (bool_decide (seg = "") || bool_decide (seg = "."))) segs
  = segs.
Proof.
  induction segs as [|seg segs IH]; [done|].
  cbn. intros [Hseg Hsegs]%andb_prop. rewrite IH by done.
  unfold plain in Hseg.
  apply andb_prop in Hseg as [[[He Hd]%andb_prop _]%andb_prop _].
  apply negb_true_iff in He, Hd. by rewrite He, Hd.
Qed.

Lemma plain_no_dotdot (segs : list string) :
  forallb plain segs = true ->
  forallb (fun seg => negb (bool_decide (seg = ".."))) segs = true.
Proof.
  induction segs as [|seg segs IH]; [done|].
  cbn. intros [Hseg Hsegs]%andb_prop. rewrite IH by done.
  unfold plain in Hseg.
  by apply andb_prop in Hseg as [[_ ->]%andb_prop _].
Qed.

(** The segments of a name that [normalizeString] keeps are plain when the
    name has no [..] segment. *)
Lemma kept_segments_plain (name : string) :
  forallb (fun seg => negb (bool_decide (seg = ".."))) (split name) = true ->
  forallb plain
    (List.filter
       (fun seg => negb (bool_decide (seg = "") || bool_decide (seg = ".")))
       (split name)) = true.
Proof.
  pose proof (split_sep_free_segments name) as Hfree.
  induction (split name) as [|seg segs IH]; [done|].
  cbn in Hfree |- *. apply andb_prop in Hfree as [Hseg Hfree].
  intros [Hdd Hsegs]%andb_prop.
  destruct (bool_decide (seg = "")) eqn:He; cbn; [by apply IH|].
  destruct (bool_decide (seg = ".")) eqn:Hd; cbn; [by apply IH|].
  rewrite IH by done. unfold plain. by rewrite He, Hd, Hdd, Hseg.
Qed.

End Sanitized.

Section Inside.

Import Path PathFacts.

Lemma normalize_resolved (root : list string) :
  forallb plain root = true -> normalize (absolute root) = absolute root.
Proof.
  intros Hroot. destruct root as [|seg root]; [done|].
  set (segs := seg :: root) in *.
  assert (unsplit segs <> "") as Hne.
  { cbn in Hroot. apply andb_prop in Hroot as [Hseg _].
    apply unsplit_nonempty. by apply plain_nonempty. }
  unfold normalize, absolute.
  change ("/" +:+ unsplit segs) with (String "/" (unsplit segs)).
  rewrite (bool_decide_eq_false_2 (String _ _ = "")) by done.
  cbn [starts_with_sep split]. change (is_sep "/") with true. cbn [negb].
  rewrite split_unsplit by done.
  assert (ends_with_sep (String "/" (unsplit segs)) = false) as ->.
  { change (String "/" (unsplit segs)) with ("/" +:+ unsplit segs).
    rewrite ends_with_sep_app by done. by apply ends_with_sep_unsplit. }
  rewrite normalizeString_no_dotdot
    by (change (forallb (fun seg => negb (bool_decide (seg = "..")))
                  ("" :: segs))
          with (forallb (fun seg => negb (bool_decide (seg = ".."))) segs);
        by apply plain_no_dotdot).
  change (rev [] ++ List.filter ?f ("" :: segs)) with (List.filter f segs).
  rewrite filter_kept_plain by done.
  by rewrite (bool_decide_eq_false_2 _ Hne).
Qed.

(** [path.join] of a resolved directory and a relative name without a [..]
    segment: the segments of the directory, then those of the name that are
    neither empty nor [.], and the trailing separator of the name if any. *)
Lemma join_below (root : list string) (name : string) :
  forallb plain root = true ->
  isAbsolute name = false ->
  forallb (fun seg => negb (bool_decide (seg = ".."))) (split name) = true ->
  let below :=
    List.filter
      (fun seg => negb (bool_decide (seg = "") || bool_decide (seg = ".")))
      (split name) in
  join (absolute root) name =
  if bool_decide (root ++ below = []) then "/"
  else absolute (root ++ below) +:+ (if ends_with_sep name then "/" else "").
Proof.
  intros Hroot Hrel Hdd below.
  pose proof (kept_segments_plain name Hdd) as Hbelow. fold below in Hbelow.
  unfold join. cbn [foldl].
  change (absolute root) with (String "/" (unsplit root)).
  rewrite (bool_decide_eq_false_2 (String _ _ = "")) by done.
  case_bool_decide as Hname.
  { subst name. subst below.
    change (List.filter ?f (split "")) with (@nil string).
    cbn [ends_with_sep]. rewrite List.app_nil_r, app_empty_r.
    change (String "/" (unsplit root)) with (absolute root).
    rewrite normalize_resolved by done.
    case_bool_decide as Hr; [by subst root|done]. }
  unfold normalize.
  rewrite (bool_decide_eq_false_2 (_ = "")) by done.
  change (String "/" (unsplit root) +:+ "/" +:+ name)
    with (String "/" (unsplit root +:+ "/" +:+ name)).
  cbn [starts_with_sep split]. change (is_sep "/") with true. cbn [negb].
  rewrite split_unsplit_app by done.
  assert (ends_with_sep (String "/" (unsplit root +:+ "/" +:+ name))
          = ends_with_sep name) as ->.
  { replace (String "/" (unsplit root +:+ "/" +:+ name))
      with (String "/" (unsplit root +:+ "/") +:+ name)
      by (by rewrite app_cons, app_assoc).
    by rewrite ends_with_sep_app. }
  rewrite normalizeString_no_dotdot; last first.
  { cbn [forallb]. rewrite forallb_app, Hdd, andb_true_r.
    destruct root as [|seg root]; [done|]. cbn [negb andb].
    by apply plain_no_dotdot. }
  assert (rev [] ++ List.filter
            (fun seg => negb (bool_decide (seg = "") || bool_decide (seg = ".")))
            ("" :: match root with [] => [""] | _ => root end ++ split name)
          = root ++ below) as ->.
  { change (rev [] ++ List.filter ?f ("" :: ?l)) with (List.filter f l).
    rewrite List.filter_app. f_equal.
    destruct root as [|seg root]; [done|]. by apply filter_kept_plain. }
  destruct (root ++ below) as [|seg segs] eqn:Hall.
  { by rewrite !bool_decide_eq_true_2. }
  assert (forallb plain (seg :: segs) = true) as Hplain.
  { rewrite <- Hall, forallb_app. by rewrite Hroot, Hbelow. }
  cbn in Hplain. apply andb_prop in Hplain as [Hseg _].
  rewrite (bool_decide_eq_false_2 (unsplit _ = ""))
    by by apply unsplit_nonempty, plain_nonempty.
  rewrite (bool_decide_eq_false_2 (_ :: _ = [])) by done.
  unfold absolute. destruct (ends_with_sep name).
  - by rewrite app_assoc.
  - by rewrite app_empty_r.
Qed.

End Inside.

(** X14: no path traversal in version 1.0.0.  Under a resolved cache root, a
    name that [sanitizeName] lets through is mapped by [cachePath] to the
    cache root followed by the segments of the name that are neither empty
    nor [.]; these segments are plain (no [..], no separator), so the path
    is the root itself or lies below it. *)
Theorem sanitized_name_stays_inside (root : list string) (name : string) :
  forallb Path.plain root = true ->
  V1_0.sanitizeName name = Some name ->
  let below :=
    List.filter
      (fun seg => negb (bool_decide (seg = "") || bool_decide (seg = ".")))
      (Path.split name) in
  forallb Path.plain below = true /\
  V1_0.cachePath (Path.absolute root) name =
    if bool_decide (root ++ below = []) then "/"
    else Path.absolute (root ++ below)
         +:+ (if Path.ends_with_sep name then "/" else "").
Proof.
  intros Hroot Hsafe below. unfold V1_0.sanitizeName in Hsafe.
  destruct (Js.includes name "..") eqn:Hinc; [done|].
  destruct (Path.isAbsolute name) eqn:Habs; [done|].
  pose proof (includes_dotdot_segments name Hinc) as Hdd.
  split; [by apply kept_segments_plain|].
  by apply join_below.
Qed.

Lemma sanitized_name_stays_inside_witness :
  forallb Path.plain
    (List.filter
       (fun seg => negb (bool_decide (seg = "") || bool_decide (seg = ".")))
       (Path.split "a/./b//c.txt")) = true /\
  V1_0.cachePath (Path.absolute ["srv"; "cache"]) "a/./b//c.txt" =
    if bool_decide
         (["srv"; "cache"]
          ++ List.filter
               (fun seg => negb (bool_decide (seg = "") || bool_decide (seg = ".")))
               (Path.split "a/./b//c.txt") = [])
    then "/"
    else Path.absolute
           (["srv"; "cache"]
            ++ List.filter
                 (fun seg =>
                    negb (bool_decide (seg = "") || bool_decide (seg = ".")))
                 (Path.split "a/./b//c.txt"))
         +:+ (if Path.ends_with_sep "a/./b//c.txt" then "/" else "").
Proof.
  apply (sanitized_name_stays_inside ["srv"; "cache"] "a/./b//c.txt");
    reflexivity.
Defined.

(** ** Version 1.0.0: the handler *)

Section V1_0_Handler.

Variable CACHE_DIR : string.

Lemma startsWith_app (prefix s : string) :
  Js.startsWith (prefix +:+ s) prefix = true.
Proof.
  induction prefix as [|c prefix IH]; [by destruct s|].
  rewrite PathFacts.app_cons. cbn. by rewrite bool_decide_eq_true_2.
Qed.

Lemma slice_app (prefix s : string) :
  Js.slice (String.length prefix) (prefix +:+ s) = s.
Proof.
  induction prefix as [|c prefix IH]; [done|].
  by rewrite PathFacts.app_cons.
Qed.

(** What [V1_0.server] runs on [/cache/<name>] once the method is not
    [OPTIONS]. *)
Lemma v1_0_on_name (m name : string) (data : Buffer) :
  m <> "OPTIONS" ->
  V1_0.server CACHE_DIR (Request m ("/cache/" +:+ name) data) =
  match V1_0.sanitizeName name with
  | None =>
      resolve (V1_0.send 400 application_json (error "Bad file name"))
  | Some safeName =>
      if bool_decide (m = "GET") then
        V1_0.get (V1_0.cachePath CACHE_DIR safeName)
      else if bool_decide (m = "POST") then
        V1_0.post (V1_0.cachePath CACHE_DIR safeName) data
      else
        resolve (V1_0.send 405 application_json (error "Method not allowed"))
  end.
Proof.
  intros Hopt. unfold V1_0.server. cbn [method pathname payload].
  rewrite (bool_decide_eq_false_2 _ Hopt).
  rewrite (bool_decide_eq_false_2 (_ = "/health")) by discriminate.
  rewrite (bool_decide_eq_false_2 (_ = "/")) by discriminate.
  by rewrite !andb_false_r, startsWith_app, slice_app.
Qed.

Lemma v1_0_post_cases (p : string) (data : Buffer) (e : env) (w : world) :
  exists r w',
    V1_0.post p data e w = (Some r, w') /\
    fetches (calls w') = fetches (calls w) /\
    ((status r = 201 /\ files w' = <[p := data]> (files w))
     \/ (status r = 500 /\
         (files w' = files w \/ exists n, files w' = <[p := take n data]> (files w)))).
Proof.
  unfold V1_0.post, try_catch, await, mkdir, writeFile, resolve, record.
  destruct (mkdir_ok e (Path.dirname p)); cbn [files calls];
    [destruct (writeFile_ok e p)|]; cbn [files calls];
    do 2 eexists; (split; [done|]); cbn [files calls];
    rewrite ?fetches_app; cbn; rewrite ?List.app_nil_r;
    (split; [done|]); try by auto.
  right. split; [done|]. destruct (written_before_fault e p); eauto.
Qed.

Lemma v1_0_get_cases (p : string) (e : env) (w : world) :
  exists r,
    V1_0.get p e w = (Some r, record (ReadFile p) w) /\
    match files w !! p with
    | Some data => r = V1_0.send 200 "application/octet-stream" (Bytes data)
    | None => r = V1_0.send 404 application_json (error "Not found")
    end.
Proof.
  unfold V1_0.get, try_catch, await, readFile, resolve.
  destruct (files w !! p); by eexists.
Qed.

End V1_0_Handler.

(** X15: version 1.0.0 turns an unsafe name down before it touches the file
    system: a request of any method but OPTIONS on [/cache/<name>], for a
    name that includes [..] or is absolute, is answered 400
    [{error:"Bad file name"}] without a single call. *)
Theorem unsafe_name_is_400
    (CACHE_DIR m name : string) (data : Buffer) (e : env) (w : world) :
  m <> "OPTIONS" ->
  Js.includes name ".." || Path.isAbsolute name = true ->
  V1_0.server CACHE_DIR (Request m ("/cache/" +:+ name) data) e w
  = (Some (V1_0.send 400 application_json (error "Bad file name")), w).
Proof.
  intros Hopt Hunsafe. rewrite v1_0_on_name by done.
  unfold V1_0.sanitizeName. by rewrite Hunsafe.
Qed.

Lemma unsafe_name_is_400_witness :
  V1_0.server "/srv/cache"
    (Request "POST" ("/cache/" +:+ "../../etc/passwd") [Byte.xff])
    origin_down empty_cache
  = (Some (V1_0.send 400 application_json (error "Bad file name")),
     empty_cache).
Proof.
  apply (unsafe_name_is_400 "/srv/cache" "POST" "../../etc/passwd" [Byte.xff]
           origin_down empty_cache);
    [discriminate|reflexivity].
Defined.

(** X16: in version 1.0.0, once a POST on [/cache/<name>] is answered 201, a
    GET on the same name is answered 200 with exactly the bytes posted, as
    [application/octet-stream], and changes no file. *)
Theorem post_then_get_round_trip
    (CACHE_DIR name : string) (data any : Buffer) (e1 e2 : env) (w : world) :
  let posted :=
    V1_0.server CACHE_DIR (Request "POST" ("/cache/" +:+ name) data) e1 w in
  (exists r, posted.1 = Some r /\ status r = 201) ->
  exists w',
    V1_0.server CACHE_DIR (Request "GET" ("/cache/" +:+ name) any) e2 posted.2
    = (Some (V1_0.send 200 "application/octet-stream" (Bytes data)), w') /\
    files w' = files posted.2.
Proof.
  intros posted. subst posted. rewrite !v1_0_on_name by done.
  destruct (V1_0.sanitizeName name) as [safe|].
  2:{ intros (r & [= <-] & Hst). discriminate. }
  rewrite (bool_decide_eq_false_2 ("POST" = "GET")) by done.
  rewrite (bool_decide_eq_true_2 ("POST" = "POST")) by done.
  rewrite (bool_decide_eq_true_2 ("GET" = "GET")) by done.
  set (p := V1_0.cachePath CACHE_DIR safe).
  destruct (v1_0_post_cases p data e1 w)
    as (r1 & w1 & -> & _ & [[_ Hfiles]|[H500 _]]); cbn [fst snd].
  - intros _. destruct (v1_0_get_cases p e2 w1) as (r & -> & Hr).
    rewrite Hfiles, lookup_insert_eq in Hr. subst r. by eexists.
  - intros (r & [= <-] & Hst). congruence.
Qed.

Lemma post_then_get_round_trip_witness :
  exists w',
    V1_0.server "/srv/cache" (Request "GET" ("/cache/" +:+ "a/b.txt") [])
      origin_down
      (V1_0.server "/srv/cache"
         (Request "POST" ("/cache/" +:+ "a/b.txt") [Byte.x01; Byte.x02])
         origin_down empty_cache).2
    = (Some (V1_0.send 200 "application/octet-stream"
               (Bytes [Byte.x01; Byte.x02])), w') /\
    files w' =
      files (V1_0.server "/srv/cache"
               (Request "POST" ("/cache/" +:+ "a/b.txt") [Byte.x01; Byte.x02])
               origin_down empty_cache).2.
Proof.
  apply (post_then_get_round_trip "/srv/cache" "a/b.txt" [Byte.x01; Byte.x02]
           [] origin_down origin_down empty_cache).
  eexists. split; reflexivity.
Defined.

(** Past the decoding, version 1.0.0 answers and keeps every file. *)
Lemma v1_0_server_never_removes
    (CACHE_DIR : string) (req : request) (e : env) (w : world) :
  exists r w',
    V1_0.server CACHE_DIR req e w = (Some r, w') /\
    dom (files w) ⊆ dom (files w') /\
    fetches (calls w') = fetches (calls w) /\
    (method req <> "POST" -> files w' = files w).
Proof.
  destruct req as [m p data]. unfold V1_0.server.
  cbn [method pathname payload].
  case_bool_decide as Hopt; [by do 2 eexists|].
  destruct (bool_decide (m = "GET") && bool_decide (p = "/health"));
    [by do 2 eexists|].
  destruct (bool_decide (m = "GET") && bool_decide (p = "/")).
  { unfold await. destruct (listCacheFiles_answers CACHE_DIR e w) as (names & ->).
    do 2 eexists. split; [done|]. cbn [record files calls].
    rewrite fetches_app. cbn. by rewrite List.app_nil_r. }
  destruct (Js.startsWith p "/cache/"); [|by do 2 eexists].
  destruct (V1_0.sanitizeName _) as [safe|]; [|by do 2 eexists].
  set (path := V1_0.cachePath CACHE_DIR safe).
  case_bool_decide as Hget.
  { destruct (v1_0_get_cases path e w) as (r & -> & _).
    do 2 eexists. split; [done|]. cbn [record files calls].
    rewrite fetches_app. cbn. by rewrite List.app_nil_r. }
  case_bool_decide as Hpost; [|by do 2 eexists].
  destruct (v1_0_post_cases path data e w)
    as (r & w' & -> & Hcalls & [[_ Hfiles]|[_ [Hfiles|[n Hfiles]]]]);
    do 2 eexists; (split; [done|]); rewrite Hfiles; (split; [|by split]);
    rewrite ?dom_insert; set_solver.
Qed.

(** X17: what version 1.0.0 never does.  A request is answered exactly when
    its URL parses and its pathname decodes; on a malformed escape the
    callback rejects with nothing sent and nothing called.  No file of the cache is ever removed;
    the origin is never asked; and only a POST can change a file. *)
Theorem v1_0_never_removes_nor_fetches
    (CACHE_DIR : string) (req : incoming) (e : env) (w : world) :
  match decoded_pathname (in_url req) with
  | None => V1_0.requestListener CACHE_DIR req e w = (None, w)
  | Some _ =>
      exists r w',
        V1_0.requestListener CACHE_DIR req e w = (Some r, w') /\
        dom (files w) ⊆ dom (files w') /\
        fetches (calls w') = fetches (calls w) /\
        (in_method req <> "POST" -> files w' = files w)
  end.
Proof.
  unfold V1_0.requestListener.
  destruct (decoded_pathname (in_url req)) as [pathname|]; [|done].
  apply (v1_0_server_never_removes CACHE_DIR
           (Request (in_method req) pathname (in_payload req))).
Qed.

(** ** The decoding in front of the routes *)

(** [decodeURIComponent] leaves a string without [%] as it is. *)
Lemma decode_without_escape (s : string) :
  Js.includes s "%" = false -> Js.decodeURIComponent s = Some s.
Proof.
  unfold Js.decodeURIComponent. induction s as [|c s IH]; [done|].
  cbn [Js.includes Js.startsWith Js.decode].
  intros [Hc Hs]%orb_false_elim.
  assert (bool_decide (c = "%"%char) = false) as Hne.
  { cbn in Hc. destruct (bool_decide (c = "%"%char)) eqn:Heq; [|done].
    apply bool_decide_eq_true in Heq as ->. by destruct s. }
  rewrite Hne. by rewrite IH.
Qed.

Lemma key_without_escape (code : string) :
  Js.test codeRegex code = true -> Js.includes ("/" +:+ code) "%" = false.
Proof.
  intros (a & b & c & -> & Ha & Hb & Hc)%codeRegex_shape.
  assert (forall d, Js.is_digit d = true -> bool_decide ("%"%char = d) = false)
    as Hd.
  { intros d Hdig. apply bool_decide_eq_false. by intros <-. }
  change ("/" +:+ String a (String b (String c "")))
    with (String "/" (String a (String b (String c "")))).
  cbn. rewrite (Hd a), (Hd b), (Hd c) by done.
  by rewrite ?(bool_decide_eq_false_2 ("%"%char = "/"%char)) by done.
Qed.

(** X18: the decoding is transparent on the route of a key.  For a valid
    code, the whole callback on the parsed pathname [/<code>] does what
    [server] does on the decoded pathname [/<code>], so what is proved of
    [server] there holds of the callback. *)
Theorem requestListener_on_key
    (CACHE_DIR m code : string) (data : Buffer) (e : env) (w : world) :
  Js.test codeRegex code = true ->
  requestListener CACHE_DIR (Incoming m (Parsed (Some ("/" +:+ code))) data) e w
  = server CACHE_DIR (Request m ("/" +:+ code) data) e w.
Proof.
  intros Hcode. unfold requestListener. cbn [in_url in_method in_payload].
  change (decoded_pathname (Parsed (Some ("/" +:+ code))))
    with (Js.decodeURIComponent ("/" +:+ code)).
  by rewrite decode_without_escape by by apply key_without_escape.
Qed.

Lemma requestListener_on_key_witness :
  requestListener "/srv/cache"
    (Incoming "GET" (Parsed (Some ("/" +:+ "200"))) []) origin_down
    (cache_with_200 [Byte.xff])
  = server "/srv/cache" (Request "GET" ("/" +:+ "200") []) origin_down
      (cache_with_200 [Byte.xff]).
Proof.
  apply (requestListener_on_key "/srv/cache" "GET" "200" [] origin_down
           (cache_with_200 [Byte.xff])).
  reflexivity.
Defined.
